(** * The monetary core of simple-banking-app-v2 (routes.py)

    A shallow embedding of the transfer, deposit, history and role-toggle
    routes of [routes.py], over an explicit model of the SQLAlchemy unit of
    work (a persisted store and the session's working copy).

    Conventions.
    - Balances and amounts are Python floats, hence binary64 values
      ([PrimFloat.float]): [execute_transfer] converts with [float(...)] and
      every message formats amounts with [:.2f].
    - A route is a function from the database (and the request data) to a
      Python result (a reply, or a raised exception) and the new database.
    - Rate limiting, CSRF checking and template rendering are outside the
      embedding; a reply records the flashed message and the endpoint or
      template only. *)

From Stdlib Require Import ZArith List String Ascii Bool Lia Floats.
From Stdlib Require Import Sorting.Sorted Sorting.Permutation.
Import ListNotations.

Local Open Scope string_scope.
Local Open Scope Z_scope.

(** ** Python results *)

Inductive exn : Type :=
| AttributeError     (* attribute access on None *)
| SQLAlchemyError.   (* a storage fault raised by the session *)

Inductive result (A : Type) : Type :=
| Return (a : A)
| Raise (e : exn).

Arguments Return {A} a.
Arguments Raise {A} e.

(** ** The two tables (models.User and models.Transaction, as routes.py uses them) *)

Record User : Type := mkUser {
  id : Z;
  username : string;
  account_number : string;
  balance : float;
  status : string;          (* 'pending' | 'active' | 'deactivated' *)
  is_admin : bool;
  is_manager : bool
}.

Record Transaction : Type := mkTransaction {
  sender_id : option Z;     (* nullable foreign key *)
  receiver_id : option Z;   (* nullable foreign key *)
  amount : option float;    (* None for non-monetary audit entries *)
  transaction_type : string;
  details : string;
  timestamp : Z             (* UTC, in microseconds *)
}.

Definition set_balance (u : User) (b : float) : User :=
  mkUser (id u) (username u) (account_number u) b (status u) (is_admin u) (is_manager u).

Definition set_status (u : User) (s : string) : User :=
  mkUser (id u) (username u) (account_number u) (balance u) s (is_admin u) (is_manager u).

Definition set_is_admin (u : User) (b : bool) : User :=
  mkUser (id u) (username u) (account_number u) (balance u) (status u) b (is_manager u).

(** ** The store and the unit of work (extensions.db) *)

Record Store : Type := mkStore {
  users : list User;
  transactions : list Transaction   (* in insertion order *)
}.

(** [persisted] is what a commit has written; [session] is the working copy
    that queries read and attribute assignments mutate. *)
Record Db : Type := mkDb {
  persisted : Store;
  session : Store
}.

(** [db.session.commit()] *)
Definition commit (db : Db) : Db := mkDb (session db) (session db).

(** [db.session.rollback()] *)
Definition rollback (db : Db) : Db := mkDb (persisted db) (persisted db).

(** A database between two requests: nothing pending. *)
Definition clean (db : Db) : Prop := session db = persisted db.

(** [User.query.get(uid)] / the loader behind [current_user] *)
Definition query_get (st : Store) (uid : Z) : option User :=
  find (fun u => Z.eqb (id u) uid) (users st).

(** [User.query.filter_by(username=name).first()] *)
Definition query_by_username (st : Store) (name : string) : option User :=
  find (fun u => String.eqb (username u) name) (users st).

(** [User.query.filter_by(account_number=acct).first()] *)
Definition query_by_account_number (st : Store) (acct : string) : option User :=
  find (fun u => String.eqb (account_number u) acct) (users st).

(** Assignment to attributes of the mapped object whose primary key is [uid]:
    every holder of that object (the identity map hands out one object per
    key) sees the change. *)
Definition update_user (st : Store) (uid : Z) (f : User -> User) : Store :=
  mkStore (map (fun u => if Z.eqb (id u) uid then f u else u) (users st))
          (transactions st).

(** [db.session.add(transaction)] *)
Definition session_add (st : Store) (t : Transaction) : Store :=
  mkStore (users st) (transactions st ++ [t]).

(** ** Eligibility *)

(** The guard as routes.py writes it (lines 260, 285, 311, 331, 473):
    [u.status != 'active' and not u.is_admin and not u.is_manager]. *)
Definition not_active_unprivileged (u : User) : bool :=
  negb (String.eqb (status u) "active") && negb (is_admin u) && negb (is_manager u).

(** The predicate as the specification words it:
    [status == active OR role in {admin, manager}]. *)
Definition eligible (u : User) : bool :=
  String.eqb (status u) "active" || is_admin u || is_manager u.

(** ** Forms (forms.py is consumed through [.data] and [validate_on_submit])

    [transfer] and [admin_deposit] use [form.amount.data] as a number as it
    is; [execute_transfer] applies [float(...)] to it first, so its form
    carries the submitted decimal numeral. *)

(** A decimal numeral as it is submitted: [unscaled / 10 ^ places]. *)
Record numeral : Type := mkNumeral {
  unscaled : Z;
  places : nat
}.

(** Python's [float(x)] on a decimal numeral is the binary64 value nearest
    to it, ties going to the even significand; it is computed here on
    integers of any size.  Every finite binary64 magnitude is [m * 2 ^ e]
    with [0 <= m < 2 ^ 53] and [-1074 <= e <= 971]; the functions below work
    with [t := e + 1074], so that [2 ^ t] is an integer. *)

(** The integer nearest to [a / b], the even one of two equally near. *)
Definition round_half_even (a b : Z) : Z :=
  let q := a / b in
  let r := a mod b in
  if 2 * r <? b then q
  else if b <? 2 * r then q + 1
  else if Z.even q then q else q + 1.

(** The exponent [t] at which [N / d] has a 53-bit significand, and 0 for the
    subnormal range. *)
Definition binary64_exponent (N d : Z) : Z :=
  let k := Z.log2 N - Z.log2 d in
  if k <? 53 then 0
  else if N <? d * 2 ^ k then k - 53 else k - 52.

(** [N / d] rounded to [m * 2 ^ t]; a significand that rounds up to [2 ^ 53]
    moves to the next exponent. *)
Definition round_to_binary64 (N d : Z) : Z * Z :=
  let t := binary64_exponent N d in
  let m := round_half_even N (d * 2 ^ t) in
  if m =? 2 ^ 53 then (2 ^ 52, t + 1) else (m, t).

(** The binary64 value nearest to [n / d], for positive [n] and [d]. *)
Definition nearest_binary64 (negative : bool) (n d : Z) : spec_float :=
  let (m, t) := round_to_binary64 (n * 2 ^ 1074) d in
  if m =? 0 then S754_zero negative
  else if 2045 <? t then S754_infinity negative
  else S754_finite negative (Z.to_pos m) (t - 1074).

Definition py_float_sf (x : numeral) : spec_float :=
  if unscaled x =? 0 then S754_zero false
  else nearest_binary64 (unscaled x <? 0) (Z.abs (unscaled x))
                        (10 ^ Z.of_nat (places x)).

(** Python's [float(x)] on a decimal numeral. *)
Definition py_float (x : numeral) : float := SF2Prim (py_float_sf x).

(** What IEEE 754 asks of the conversion.  [distance n d m e] is
    [|n / d - m * 2 ^ e|] multiplied by [d * 2 ^ 1074]. *)
Definition distance (n d m e : Z) : Z :=
  Z.abs (n * 2 ^ 1074 - m * 2 ^ (e + 1074) * d).

(** [f] is [n / d] rounded to the nearest binary64 value, ties to even:
    zero up to half the least subnormal, infinity from [2 ^ 1024 - 2 ^ 970]
    on, and otherwise the canonical [m * 2 ^ e] no further from [n / d] than
    any other [m' * 2 ^ e'], with [m] even when another is as near. *)
Definition correctly_rounded (n d : Z) (f : spec_float) : Prop :=
  match f with
  | S754_zero _ => 2 * (n * 2 ^ 1074) <= d
  | S754_infinity _ => (2 ^ 54 - 1) * 2 ^ 2045 * d <= 2 * (n * 2 ^ 1074)
  | S754_finite _ p e =>
      (-1074 <= e <= 971 /\ Z.pos p < 2 ^ 53 /\ (-1074 < e -> 2 ^ 52 <= Z.pos p))
      /\ 2 * (n * 2 ^ 1074) < (2 ^ 54 - 1) * 2 ^ 2045 * d
      /\ (forall m' e', 0 <= m' < 2 ^ 53 -> -1074 <= e' ->
            distance n d (Z.pos p) e <= distance n d m' e')
      /\ (forall m' e', 0 <= m' < 2 ^ 53 -> -1074 <= e' ->
            m' * 2 ^ (e' + 1074) <> Z.pos p * 2 ^ (e + 1074) ->
            distance n d m' e' = distance n d (Z.pos p) e ->
            Z.even (Z.pos p) = true)
  | S754_nan => False
  end.

Definition sign_bit (f : spec_float) : option bool :=
  match f with
  | S754_zero s | S754_infinity s | S754_finite s _ _ => Some s
  | S754_nan => None
  end.

Record TransferForm : Type := mkTransferForm {
  tf_validate_on_submit : bool;
  tf_transfer_type : string;          (* 'username' | 'account' *)
  tf_recipient_username : string;
  tf_recipient_account : string;
  tf_amount : float
}.

Record ConfirmTransferForm : Type := mkConfirmTransferForm {
  cf_validate_on_submit : bool;
  cf_transfer_type : string;
  cf_recipient_username : string;
  cf_recipient_account : string;
  cf_amount : numeral                  (* converted with float() on use *)
}.

Record DepositForm : Type := mkDepositForm {
  df_validate_on_submit : bool;
  df_account_number : string;
  df_amount : float
}.

(** ** Replies *)

(** The flashed messages, one constructor per literal of routes.py. *)
Inductive message : Type :=
| AwaitingApproval        (* 'Your account is awaiting approval from an administrator.' *)
| CannotTransferToSelf    (* 'You cannot transfer money to yourself.' *)
| InsufficientFunds       (* 'Insufficient funds for this transfer.' *)
| RecipientNotActive      (* 'The recipient account is not active.' *)
| RecipientNotFound       (* 'Recipient not found.' *)
| Transferred (a : float) (recipient : string)
                          (* 'Successfully transferred {a:.2f} to {recipient}' *)
| TransferFailed          (* 'Transfer failed. Please check your balance.' *)
| NeedAdmin               (* 'You need to be an admin to access this page.' *)
| NeedManager             (* 'You need to be a manager to access this page.' *)
| UserNotFound            (* 'User not found' *)
| CannotDepositInactive   (* 'Cannot deposit to inactive account.' *)
| Deposited (a : float) (recipient : string)
                          (* 'Successfully deposited {a:.2f} to {recipient}' *)
| DepositFailed           (* 'Deposit failed.' *)
| CannotModifyManager     (* 'You cannot modify another manager account.' *)
| Promoted (name : string)   (* 'User {name} has been promoted to admin.' *)
| Demoted (name : string).   (* 'User {name} has been demoted from admin.' *)

Inductive reply : Type :=
| Flash (m : message) (endpoint : string)   (* flash(m); redirect(url_for(endpoint)) *)
| Redirect (endpoint : string)
| Render (template : string)
| RenderConfirm (recipient : User) (a : float)        (* confirm_transfer.html *)
| RenderTransactions (u : User) (ts : list Transaction)  (* admin/user_transactions.html *)
| Unauthorized            (* login_required turned the request away *)
| NotFound404             (* get_or_404 *)
| ServerError500.         (* error.html rendered by the 500 handler *)

(** ** The history query (lines 709-711) *)

(** SQL comparison and disjunction are three-valued: a NULL column compares
    to NULL, and a row is selected when the condition is TRUE. *)
Definition sql_eq (column : option Z) (v : Z) : option bool :=
  option_map (fun c => Z.eqb c v) column.

Definition sql_or (a b : option bool) : option bool :=
  match a, b with
  | Some true, _ | _, Some true => Some true
  | Some false, Some false => Some false
  | _, _ => None
  end.

Definition sql_selected (c : option bool) : bool :=
  match c with Some true => true | _ => false end.

(** [(Transaction.sender_id == uid) | (Transaction.receiver_id == uid)] *)
Definition involves (uid : Z) (t : Transaction) : bool :=
  sql_selected (sql_or (sql_eq (sender_id t) uid) (sql_eq (receiver_id t) uid)).

Fixpoint insert_desc (t : Transaction) (l : list Transaction) : list Transaction :=
  match l with
  | [] => [t]
  | x :: r => if Z.leb (timestamp x) (timestamp t) then t :: x :: r
              else x :: insert_desc t r
  end.

(** [.order_by(Transaction.timestamp.desc())] *)
Definition order_by_timestamp_desc (l : list Transaction) : list Transaction :=
  fold_right insert_desc [] l.

Definition user_transactions (st : Store) (uid : Z) : list Transaction :=
  order_by_timestamp_desc (filter (involves uid) (transactions st)).

(** Newest first: every record is at least as recent as the one after it. *)
Definition newer_or_same (a b : Transaction) : Prop := timestamp b <= timestamp a.

(** ** The routes *)

Section Routes.

(** models.py is not part of the sources: the routes are parametrised by
    the two model-layer methods they call.  A method receives the session
    it works on and returns its Python result and the session it leaves. *)
Variable transfer_money : Store -> User -> User -> float -> result bool * Store.
Variable deposit : Store -> User -> float -> User -> result bool * Store.

(** The recipient lookup shared by [transfer] and [execute_transfer]. *)
Definition find_recipient (st : Store) (transfer_type rname racct : string)
  : option User :=
  if String.eqb transfer_type "username" then query_by_username st rname
  else query_by_account_number st racct.

(** [/transfer] (lines 259-303): validates and shows the confirmation page. *)
Definition transfer (db : Db) (uid : Z) (form : TransferForm)
  : result reply * Db :=
  match query_get (session db) uid with
  | None => (Return Unauthorized, db)
  | Some current_user =>
    if not_active_unprivileged current_user
    then (Return (Flash AwaitingApproval "index"), db)
    else if tf_validate_on_submit form then
      let recipient :=
        find_recipient (session db) (tf_transfer_type form)
          (tf_recipient_username form) (tf_recipient_account form) in
      let amount := tf_amount form in
      if match recipient with
         | Some r => Z.eqb (id r) (id current_user)
         | None => false
         end
      then (Return (Flash CannotTransferToSelf "transfer"), db)
      else if PrimFloat.ltb (balance current_user) amount
      then (Return (Flash InsufficientFunds "transfer"), db)
      else match recipient with
           | None => (Raise AttributeError, db)     (* recipient.status on None *)
           | Some r =>
             if not_active_unprivileged r
             then (Return (Flash RecipientNotActive "transfer"), db)
             else (Return (RenderConfirm r amount), db)
           end
    else (Return (Render "transfer.html"), db)
  end.

(** [/execute_transfer] (lines 310-343). *)
Definition execute_transfer (db : Db) (uid : Z) (form : ConfirmTransferForm)
  : result reply * Db :=
  match query_get (session db) uid with
  | None => (Return Unauthorized, db)
  | Some current_user =>
    if not_active_unprivileged current_user
    then (Return (Flash AwaitingApproval "index"), db)
    else if cf_validate_on_submit form then
      let amount := py_float (cf_amount form) in
      match find_recipient (session db) (cf_transfer_type form)
              (cf_recipient_username form) (cf_recipient_account form) with
      | None => (Return (Flash RecipientNotFound "transfer"), db)
      | Some recipient =>
        if not_active_unprivileged recipient
        then (Return (Flash RecipientNotActive "transfer"), db)
        else match transfer_money (session db) current_user recipient amount with
             | (Return true, st) =>
               (Return (Flash (Transferred amount (username recipient)) "account"),
                commit (mkDb (persisted db) st))
             | (Return false, st) =>
               (Return (Flash TransferFailed "transfer"), mkDb (persisted db) st)
             | (Raise e, st) => (Raise e, mkDb (persisted db) st)
             end
      end
    else (Return (Redirect "transfer"), db)
  end.

(** [/admin/deposit] (lines 457-488), on a POST. *)
Definition admin_deposit (db : Db) (uid : Z) (form : DepositForm)
  : result reply * Db :=
  match query_get (session db) uid with
  | None => (Return Unauthorized, db)
  | Some current_user =>
    if negb (is_admin current_user)
    then (Return (Flash NeedAdmin "index"), db)
    else if df_validate_on_submit form then
      match query_by_account_number (session db) (df_account_number form) with
      | None => (Return (Flash UserNotFound "admin_deposit"), db)
      | Some user =>
        if not_active_unprivileged user
        then (Return (Flash CannotDepositInactive "admin_deposit"), db)
        else
          let amount := df_amount form in
          match deposit (session db) user amount current_user with
          | (Return true, st) =>
            (Return (Flash (Deposited amount (username user)) "admin_dashboard"),
             commit (mkDb (persisted db) st))
          | (Return false, st) =>
            (Return (Flash DepositFailed "admin_deposit"), mkDb (persisted db) st)
          | (Raise e, st) => (Raise e, mkDb (persisted db) st)
          end
      end
    else (Return (Render "admin/deposit.html"), db)
  end.

(** [/admin/user/<user_id>/transactions] (lines 707-712). *)
Definition admin_user_transactions (db : Db) (uid : Z) (user_id : Z)
  : result reply * Db :=
  match query_get (session db) uid with
  | None => (Return Unauthorized, db)
  | Some current_user =>
    if negb (is_admin current_user)
    then (Return (Flash NeedAdmin "index"), db)
    else match query_get (session db) user_id with
         | None => (Return NotFound404, db)
         | Some user =>
           (Return (RenderTransactions user
                      (user_transactions (session db) (id user))), db)
         end
  end.

(** [/manager/toggle_admin/<user_id>] (lines 857-880). *)
Definition toggle_admin (db : Db) (uid : Z) (user_id : Z)
  : result reply * Db :=
  match query_get (session db) uid with
  | None => (Return Unauthorized, db)
  | Some current_user =>
    if negb (is_manager current_user)
    then (Return (Flash NeedManager "index"), db)
    else match query_get (session db) user_id with
         | None => (Return NotFound404, db)
         | Some user =>
           if is_manager user
           then (Return (Flash CannotModifyManager "manager_dashboard"), db)
           else
             let toggled := negb (is_admin user) in
             let st1 := update_user (session db) (id user)
                          (fun u => set_is_admin u (negb (is_admin u))) in
             if toggled then
               let st2 := update_user st1 (id user)
                            (fun u => set_status u "active") in
               (Return (Flash (Promoted (username user)) "user_list"),
                commit (mkDb (persisted db) st2))
             else
               (Return (Flash (Demoted (username user)) "admin_list"),
                commit (mkDb (persisted db) st1))
         end
  end.

(** [@app.errorhandler(500)] (lines 1163-1166). *)
Definition internal_error (db : Db) : reply * Db :=
  (ServerError500, rollback db).

(** Flask's dispatch of a view: an exception that escapes it reaches the
    500 handler. *)
Definition handle (r : result reply * Db) : reply * Db :=
  match r with
  | (Return x, db) => (x, db)
  | (Raise _, db) => internal_error db
  end.

End Routes.

(** ** The model layer *)

Module Core.

(** Modelled from the spec: [models.User.transfer_money] is not part of the
    sources (only its call at routes.py line 335 is).  Section 4.1:
    preconditions [sender.id != recipient.id], [amount > 0], both parties
    eligible; effect: decrement the sender's balance by [amount] and
    increment the recipient's, succeeding only if [sender.balance >= amount];
    then one record of kind transfer is appended in the same unit of work.
    [append_fails] is a storage fault while the record is appended, after
    the balances were tentatively mutated; [now] is the creation time. *)
Definition transfer_money (append_fails : bool) (now : Z)
    (st : Store) (self recipient : User) (a : float) : result bool * Store :=
  if Z.eqb (id self) (id recipient) then (Return false, st)
  else if negb (PrimFloat.ltb 0 a) then (Return false, st)
  else if negb (eligible self && eligible recipient) then (Return false, st)
  else if negb (PrimFloat.leb a (balance self)) then (Return false, st)
  else
    let st1 := update_user st (id self)
                 (fun u => set_balance u (PrimFloat.sub (balance u) a)) in
    let st2 := update_user st1 (id recipient)
                 (fun u => set_balance u (PrimFloat.add (balance u) a)) in
    if append_fails then (Raise SQLAlchemyError, st2)
    else (Return true,
          session_add st2
            (mkTransaction (Some (id self)) (Some (id recipient)) (Some a)
                           "transfer" "" now)).

(** Modelled from the spec: [models.User.deposit] is not part of the
    sources (only its call at routes.py line 480 is).  Section 4.1:
    preconditions [amount > 0] and an eligible target; effect: increment the
    target's balance by [amount]; the actor is recorded for audit and does
    not affect balances; the record has kind deposit and a null sender. *)
Definition deposit (append_fails : bool) (now : Z)
    (st : Store) (self : User) (a : float) (admin_user : User)
  : result bool * Store :=
  if negb (PrimFloat.ltb 0 a) then (Return false, st)
  else if negb (eligible self) then (Return false, st)
  else
    let st1 := update_user st (id self)
                 (fun u => set_balance u (PrimFloat.add (balance u) a)) in
    if append_fails then (Raise SQLAlchemyError, st1)
    else (Return true,
          session_add st1
            (mkTransaction None (Some (id self)) (Some a) "deposit"
                           ("Deposit by admin " ++ username admin_user) now)).

End Core.

(** A request succeeded when it flashed one of the two success messages. *)
Definition succeeded (r : reply) : bool :=
  match r with
  | Flash (Transferred _ _) _ | Flash (Deposited _ _) _ => true
  | _ => false
  end.

(** The session a successful spec-modelled operation leaves: both balances
    moved and the one matching record appended. *)
Definition transferred (st : Store) (sender recipient : User) (a : float) (now : Z)
  : Store :=
  session_add
    (update_user
       (update_user st (id sender)
          (fun u => set_balance u (PrimFloat.sub (balance u) a)))
       (id recipient)
       (fun u => set_balance u (PrimFloat.add (balance u) a)))
    (mkTransaction (Some (id sender)) (Some (id recipient)) (Some a)
                   "transfer" "" now).

Definition deposited (st : Store) (target actor : User) (a : float) (now : Z)
  : Store :=
  session_add
    (update_user st (id target)
       (fun u => set_balance u (PrimFloat.add (balance u) a)))
    (mkTransaction None (Some (id target)) (Some a) "deposit"
                   ("Deposit by admin " ++ username actor) now).

(** ** Sequences of operations *)

(** What a request meets besides the database: the clock, and whether the
    storage fails while the record is appended. *)
Record env : Type := mkEnv {
  now : Z;
  append_fails : bool
}.

Inductive request : Type :=
| ExecuteTransfer (uid : Z) (form : ConfirmTransferForm)
| AdminDeposit (uid : Z) (form : DepositForm).

(** One request, served by Flask over the spec-modelled model layer. *)
Definition serve (e : env) (r : request) (db : Db) : reply * Db :=
  match r with
  | ExecuteTransfer uid form =>
    handle (execute_transfer
              (Core.transfer_money (append_fails e) (now e)) db uid form)
  | AdminDeposit uid form =>
    handle (admin_deposit (Core.deposit (append_fails e) (now e)) db uid form)
  end.

Fixpoint run (rs : list (env * request)) (db : Db) : Db :=
  match rs with
  | [] => db
  | (e, r) :: rs' => run rs' (snd (serve e r db))
  end.

(** The accounts an operation moves money from or to: the sender and the
    recipient of a transfer, the target of a deposit (the admin who makes a
    deposit is no party: the record has a null sender). *)
Definition parties (r : request) (db : Db) : list Z :=
  match r with
  | ExecuteTransfer uid form =>
    uid :: match find_recipient (session db) (cf_transfer_type form)
                   (cf_recipient_username form) (cf_recipient_account form) with
           | Some u => [id u]
           | None => []
           end
  | AdminDeposit _ form =>
    match query_by_account_number (session db) (df_account_number form) with
    | Some u => [id u]
    | None => []
    end
  end.

(** A performed operation that involves account [a]. *)
Definition operation_on (a : Z) (e : env) (r : request) (db : Db) : bool :=
  succeeded (fst (serve e r db)) && existsb (Z.eqb a) (parties r db).

Fixpoint operations_on (a : Z) (rs : list (env * request)) (db : Db) : nat :=
  match rs with
  | [] => 0%nat
  | (e, r) :: rs' =>
    ((if operation_on a e r db then 1 else 0)
     + operations_on a rs' (snd (serve e r db)))%nat
  end.

(** ** A small bank, for concrete runs *)

Module Bank.

Definition alice : User := mkUser 1 "alice" "1000000001" 100%float "active" false false.
Definition bob : User := mkUser 2 "bob" "1000000002" 0%float "active" false false.
Definition carol : User := mkUser 3 "carol" "1000000003" 40%float "deactivated" false false.
Definition dave : User := mkUser 4 "dave" "1000000004" 0%float "pending" false false.
Definition erin : User := mkUser 5 "erin" "1000000005" 0%float "pending" true false.
Definition mallory : User := mkUser 6 "mallory" "1000000006" 0%float "active" false true.

Definition store0 : Store :=
  mkStore [alice; bob; carol; dave; erin; mallory] [].

Definition db0 : Db := mkDb store0 store0.

(** POST /transfer and POST /execute_transfer bodies. *)
Definition to_bob (a : float) : TransferForm :=
  mkTransferForm true "username" "bob" "" a.
Definition to_alice (a : float) : TransferForm :=
  mkTransferForm true "username" "alice" "" a.
Definition to_ghost (a : float) : TransferForm :=
  mkTransferForm true "username" "ghost" "" a.

Definition confirm_to (name : string) (n : numeral) : ConfirmTransferForm :=
  mkConfirmTransferForm true "username" name "" n.

Definition deposit_to (acct : string) (a : float) : DepositForm :=
  mkDepositForm true acct a.

(** The decimal amounts 0.10, 0.20, 0.30, 50.00, 100.00 and 150.00. *)
Definition d0_10 : numeral := mkNumeral 10 2.
Definition d0_20 : numeral := mkNumeral 20 2.
Definition d0_30 : numeral := mkNumeral 30 2.
Definition d50 : numeral := mkNumeral 5000 2.
Definition d100 : numeral := mkNumeral 10000 2.
Definition d150 : numeral := mkNumeral 15000 2.

(** Numerals beyond 63 bits and with a long fraction: 2^63 + 50, 10^-63 and
    90071992547409.93. *)
Definition huge : numeral := mkNumeral 9223372036854775858 0.
Definition tiny : numeral := mkNumeral 1 63.
Definition long : numeral := mkNumeral 9007199254740993 2.

(** An account holding 10^16, where neighbouring binary64 values are 2
    apart, and the bank it is in. *)
Definition vault : User :=
  mkUser 7 "vault" "1000000007" 10000000000000000%float "active" false false.

Definition store_vault : Store := mkStore [vault; erin] [].

Definition db_vault : Db := mkDb store_vault store_vault.

(** Four records with out-of-order timestamps, one with a null sender and
    one between other accounts. *)
Definition t_deposit : Transaction :=
  mkTransaction None (Some 1) (Some 25%float) "deposit" "Deposit by admin erin" 20.
Definition t_out : Transaction :=
  mkTransaction (Some 1) (Some 2) (Some 5%float) "transfer" "" 30.
Definition t_other : Transaction :=
  mkTransaction (Some 2) (Some 3) (Some 1%float) "transfer" "" 25.
Definition t_in : Transaction :=
  mkTransaction (Some 2) (Some 1) (Some 2%float) "transfer" "" 10.

Definition store1 : Store :=
  mkStore (users store0) [t_deposit; t_out; t_other; t_in].

Definition four_requests : list (env * request) :=
  [ (mkEnv 10 false, ExecuteTransfer 1 (confirm_to "bob" d50));
    (mkEnv 20 false, ExecuteTransfer 1 (confirm_to "bob" d150));
    (mkEnv 30 true, AdminDeposit 5 (deposit_to "1000000001" 25));
    (mkEnv 40 false, AdminDeposit 5 (deposit_to "1000000001" 25)) ].

End Bank.

(** ** Plain functions of routes.py *)

(** A Python [str] as the list of its code points; [codepoints] reads an
    ASCII literal. *)
Definition pystr : Type := list N.

Definition codepoints (s : string) : pystr :=
  map N_of_ascii (list_ascii_of_string s).

Definition in_range (lo hi c : N) : bool := N.leb lo c && N.leb c hi.

(** The four character classes of [is_strong_password]: [[A-Z]], [[a-z]],
    [[0-9]] and the listed punctuation
    (exclamation mark, at, hash, dollar, percent, caret, ampersand, asterisk,
    parentheses, comma, full stop, question mark, double quote, colon,
    braces, bar, angle brackets). *)
Definition is_upper (c : N) : bool := in_range 65 90 c.
Definition is_lower (c : N) : bool := in_range 97 122 c.
Definition is_digit (c : N) : bool := in_range 48 57 c.

Definition specials : list N :=
  [33; 64; 35; 36; 37; 94; 38; 42; 40; 41; 44; 46; 63; 34; 58; 123; 125; 124; 60; 62]%N.

Definition is_special (c : N) : bool := existsb (N.eqb c) specials.

(** [re.search(r"[...]", s)] finds a match: some character is in the class. *)
Definition re_search (class : N -> bool) (s : pystr) : bool := existsb class s.

(** [is_strong_password] (lines 19-31). *)
Definition is_strong_password (password : pystr) : bool :=
  if Nat.ltb (List.length password) 8 then false
  else if negb (re_search is_upper password) then false
  else if negb (re_search is_lower password) then false
  else if negb (re_search is_digit password) then false
  else if negb (re_search is_special password) then false
  else true.

(** [mask_sensitive] (lines 1123-1126); [None] is Python's [None]. *)
Definition mask_sensitive (value : option pystr) : pystr :=
  match value with
  | Some v =>
    if negb (Nat.eqb (List.length v) 0) && Nat.ltb 4 (List.length v)
    then (firstn 2 v ++ repeat 42%N (List.length v - 4)
            ++ skipn (List.length v - 2) v)%list
    else codepoints "****"
  | None => codepoints "****"
  end.

(** [s.replace(old, new, 1)] for a non-empty [old]: the leftmost occurrence
    is replaced. *)
Fixpoint drop (n : nat) (s : string) : string :=
  match n, s with
  | S n', String _ s' => drop n' s'
  | _, _ => s
  end.

Fixpoint replace_once (old new s : string) : string :=
  if String.prefix old s then new ++ drop (String.length old) s
  else match s with
       | EmptyString => EmptyString
       | String c s' => String c (replace_once old new s')
       end.

(** [old] occurs somewhere in [s]. *)
Fixpoint occurs (old s : string) : bool :=
  String.prefix old s
  || match s with
     | EmptyString => false
     | String _ s' => occurs old s'
     end.

(** What Flask does with a request before the view. *)
Inductive response : Type :=
| MovedPermanently (url : string)    (* redirect(url, code=301) *)
| Served (r : reply).

(** [enforce_https] (lines 1139-1143): [Some url] is the redirect it
    returns, [None] lets the request through.  [debug] is [app.debug],
    [x_forwarded_proto] the header (if sent) and [url] is [request.url]. *)
Definition enforce_https (debug : bool) (x_forwarded_proto : option string)
           (url : string) : option string :=
  let proto := match x_forwarded_proto with Some p => p | None => "http" end in
  if negb debug && negb (String.eqb proto "https")
  then Some (replace_once "http://" "https://" url)
  else None.

(** A request to a view, with its [before_request] hook: a hook that returns
    a response keeps the view from running. *)
Definition before_request (debug : bool) (x_forwarded_proto : option string)
           (url : string) (view : Db -> result reply * Db) (db : Db)
  : response * Db :=
  match enforce_https debug x_forwarded_proto url with
  | Some target => (MovedPermanently target, db)
  | None => let (r, db') := handle (view db) in (Served r, db')
  end.

(** ** Administration routes *)

(** Replies of the routes below; a flashed text is kept literally. *)
Inductive page : Type :=
| FlashTo (msg : string) (endpoint : string)  (* flash(msg); redirect(url_for(endpoint)) *)
| GoTo (endpoint : string)                    (* redirect(url_for(endpoint)) *)
| Page (template : string)
| ShowUsers (template : string) (listed : list User)
| ShowDashboard (admins regular_users : list User)   (* manager/dashboard.html *)
| ShowPin (show_reset : bool) (flashed : option string)   (* pin_verify.html *)
| ShowWithError (template : string) (error : string)  (* a field error, then the form again *)
| FlashLogoutTo (msg : string) (endpoint : string)    (* flash; logout_user(); redirect *)
| LoggedIn (u : User) (next_page : option string)
    (* secure_login_user(u); redirect(next_page), None being url_for('index') *)
| LoginRequired
| Abort404.

(** [@login_required], [@admin_required] (lines 39-46) and
    [@manager_required] (lines 49-56), around a view. *)
Definition login_required (db : Db) (uid : Z) (f : User -> page * Db)
  : page * Db :=
  match query_get (session db) uid with
  | None => (LoginRequired, db)
  | Some current_user => f current_user
  end.

Definition admin_required (db : Db) (f : User -> page * Db) (current_user : User)
  : page * Db :=
  if negb (is_admin current_user)
  then (FlashTo "You need to be an admin to access this page." "index", db)
  else f current_user.

Definition manager_required (db : Db) (f : User -> page * Db) (current_user : User)
  : page * Db :=
  if negb (is_manager current_user)
  then (FlashTo "You need to be a manager to access this page." "index", db)
  else f current_user.

Section Administration.

(** [models.User.can_manage_user] is not part of the sources. *)
Variable can_manage_user : User -> User -> bool.

(** [/admin/activate_user/<user_id>] (lines 406-420). *)
Definition activate_user (db : Db) (uid user_id : Z) : page * Db :=
  login_required db uid
    (admin_required db
       (fun current_user =>
          match query_get (session db) user_id with
          | None => (Abort404, db)
          | Some user =>
            if negb (can_manage_user current_user user)
            then (FlashTo "You do not have permission to manage this user."
                          "admin_dashboard", db)
            else
              let st := update_user (session db) (id user)
                          (fun u => set_status u "active") in
              (FlashTo ("Account " ++ username user ++ " has been activated.")
                       "admin_dashboard",
               commit (mkDb (persisted db) st))
          end)).

(** [/admin/deactivate_user/<user_id>] (lines 422-436). *)
Definition deactivate_user (db : Db) (uid user_id : Z) : page * Db :=
  login_required db uid
    (admin_required db
       (fun current_user =>
          match query_get (session db) user_id with
          | None => (Abort404, db)
          | Some user =>
            if negb (can_manage_user current_user user)
            then (FlashTo "You do not have permission to manage this user."
                          "admin_dashboard", db)
            else
              let st := update_user (session db) (id user)
                          (fun u => set_status u "deactivated") in
              (FlashTo ("Account " ++ username user ++ " has been deactivated.")
                       "admin_dashboard",
               commit (mkDb (persisted db) st))
          end)).

End Administration.

(** [/admin] (lines 391-404). *)
Definition admin_dashboard (db : Db) (uid : Z) : page * Db :=
  login_required db uid
    (admin_required db
       (fun current_user =>
          let listed :=
            if is_manager current_user
            then filter (fun u => negb (is_admin u)) (users (session db))
            else filter (fun u => negb (is_admin u) && negb (is_manager u))
                        (users (session db)) in
          (ShowUsers "admin/dashboard.html" listed, db))).

(** [/manager] (lines 828-837). *)
Definition manager_dashboard (db : Db) (uid : Z) : page * Db :=
  login_required db uid
    (manager_required db
       (fun _ =>
          let admins :=
            filter (fun u => Bool.eqb (is_admin u) true && Bool.eqb (is_manager u) false)
                   (users (session db)) in
          let regular_users :=
            filter (fun u => Bool.eqb (is_admin u) false && Bool.eqb (is_manager u) false)
                   (users (session db)) in
          (ShowDashboard admins regular_users, db))).

(** [/manager/user_list] (lines 882-888). *)
Definition user_list (db : Db) (uid : Z) : page * Db :=
  login_required db uid
    (manager_required db
       (fun _ =>
          let listed :=
            filter (fun u => negb (is_admin u) && negb (is_manager u))
                   (users (session db)) in
          (ShowUsers "manager/user_list.html" listed, db))).

(** [/manager/admin_list] (lines 890-896). *)
Definition admin_list (db : Db) (uid : Z) : page * Db :=
  login_required db uid
    (manager_required db
       (fun _ =>
          let admins :=
            filter (fun u => is_admin u && negb (is_manager u))
                   (users (session db)) in
          (ShowUsers "manager/admin_list.html" admins, db))).

(** ** Signing in and the PIN *)

(** A row of the user table with the two hashes these routes read and
    write. *)
Record Member : Type := mkMember {
  profile : User;
  password_hash : option string;
  pin_hash : option string
}.

(** Truth value of an attribute that is [None] or a string. *)
Definition truthy (h : option string) : bool :=
  match h with
  | Some s => negb (String.eqb s "")
  | None => false
  end.

(** The keys of Flask's [session] that the PIN routes use;
    [pin_attempts = None] is an absent key. *)
Record Browser : Type := mkBrowser {
  pin_attempts : option nat;
  pin_verified : bool
}.

Record LoginForm : Type := mkLoginForm {
  lf_validate_on_submit : bool;
  lf_username : string;
  lf_password : string
}.

Record PinForm : Type := mkPinForm {
  pf_validate_on_submit : bool;
  pf_pin : string
}.

Record ResetPinForm : Type := mkResetPinForm {
  rf_validate_on_submit : bool;
  rf_password : string;
  rf_pin : string
}.

(** The failed attempts a browser session has on record. *)
Definition failed_attempts (c : Browser) : nat :=
  match pin_attempts c with Some k => k | None => 0%nat end.

(** [len(h) == 64 and not h.startswith('$2b$')], for a hash that is set
    (line 105). *)
Definition is_legacy_hash (h : option string) : bool :=
  match h with
  | Some s => negb (String.eqb s "") && Nat.eqb (String.length s) 64
              && negb (String.prefix "$2b$" s)
  | None => false
  end.

(** Assignment to attributes of the row whose primary key is [uid]. *)
Definition update_member (members : list Member) (uid : Z) (f : Member -> Member)
  : list Member :=
  map (fun m => if Z.eqb (id (profile m)) uid then f m else m) members.

Section Credentials.

(** Hashing is outside the sources: [hashlib.sha256(...).hexdigest()], the
    hash [User.set_password] stores, [User.check_password], the hash
    [User.set_pin] stores, [User.check_pin], and [url_parse(...).netloc]. *)
Variable sha256_hexdigest : string -> string.
Variable password_hasher : string -> string.
Variable check_password : Member -> string -> bool.
Variable pin_hasher : string -> string.
Variable check_pin : Member -> string -> bool.
Variable netloc : string -> string.

(** [user.set_password(password)] and [user.set_pin(pin)]. *)
Definition set_password (m : Member) (password : string) : Member :=
  mkMember (profile m) (Some (password_hasher password)) (pin_hash m).

Definition set_pin (m : Member) (pin : string) : Member :=
  mkMember (profile m) (password_hash m) (Some (pin_hasher pin)).

(** [/login] (lines 96-138).  [authenticated] is
    [current_user.is_authenticated], [next] is [request.args.get('next')];
    the table returned is the committed one. *)
Definition login (members : list Member) (authenticated : bool)
           (form : LoginForm) (next : option string) : page * list Member :=
  if authenticated then (GoTo "index", members)
  else if lf_validate_on_submit form then
    let user :=
      find (fun m => String.eqb (username (profile m)) (lf_username form))
           members in
    let invalid := (FlashTo "Invalid username or password" "login", members) in
    let check_status (m : Member) (members' : list Member) :=
      if not_active_unprivileged (profile m) then
        if String.eqb (status (profile m)) "pending"
        then (FlashTo "Your account is awaiting approval from an administrator."
                      "login", members')
        else (FlashTo
                "Your account has been deactivated. Please contact an administrator."
                "login", members')
      else
        let next_page :=
          match next with
          | Some n => if String.eqb n "" || negb (String.eqb (netloc n) "")
                      then None else Some n
          | None => None
          end in
        (LoggedIn (profile m) next_page, members') in
    match user with
    | Some m =>
      if is_legacy_hash (password_hash m) then
        if match password_hash m with
           | Some h => String.eqb (sha256_hexdigest (lf_password form)) h
           | None => false
           end
        then
          check_status (set_password m (lf_password form))
            (update_member members (id (profile m))
               (fun x => set_password x (lf_password form)))
        else invalid
      else if negb (check_password m (lf_password form)) then invalid
      else check_status m members
    | None => invalid
    end
  else (Page "login.html", members).

(** [/] and [/index] (lines 70-75). *)
Definition index (current_user : option Member) : page :=
  match current_user with
  | None => LoginRequired
  | Some me =>
    if not_active_unprivileged (profile me)
    then FlashLogoutTo "Your account is awaiting approval from an administrator."
                       "login"
    else Page "index.html"
  end.

(** [/account/pin] (lines 167-187). *)
Definition account_pin (current_user : option Member) (form : PinForm)
           (c : Browser) : page * Browser :=
  match current_user with
  | None => (LoginRequired, c)
  | Some me =>
    if negb (truthy (pin_hash me)) then (GoTo "create_pin", c)
    else
      let c0 := match pin_attempts c with
                | None => mkBrowser (Some 0%nat) (pin_verified c)
                | Some _ => c
                end in
      if pf_validate_on_submit form then
        if check_pin me (pf_pin form)
        then (GoTo "account", mkBrowser (Some 0%nat) true)
        else
          let n := S (match pin_attempts c0 with Some k => k | None => 0%nat end) in
          let c1 := mkBrowser (Some n) (pin_verified c0) in
          if Nat.leb 3 n
          then (ShowPin true
                  (Some "You have entered an incorrect PIN three times. Please reset your PIN."),
                c1)
          else (ShowPin false (Some "Incorrect PIN. Please try again."), c1)
      else (ShowPin false None, c0)
  end.

(** [/account/create_pin] (lines 191-201); the member returned is the
    committed row of the current user. *)
Definition create_pin (current_user : option Member) (form : PinForm)
           (c : Browser) : page * option Member * Browser :=
  match current_user with
  | None => (LoginRequired, None, c)
  | Some me =>
    if truthy (pin_hash me) then (GoTo "account_pin", Some me, c)
    else if pf_validate_on_submit form then
      (FlashTo "PIN set successfully!" "account",
       Some (set_pin me (pf_pin form)),
       mkBrowser (pin_attempts c) true)
    else (Page "pin_create.html", Some me, c)
  end.

(** [/account/reset_pin] (lines 205-219). *)
Definition reset_pin (current_user : option Member) (form : ResetPinForm)
           (c : Browser) : page * option Member * Browser :=
  match current_user with
  | None => (LoginRequired, None, c)
  | Some user =>
    if rf_validate_on_submit form then
      if negb (check_password user (rf_password form))
      then (ShowWithError "pin_reset.html" "Incorrect password.", Some user, c)
      else (FlashTo "Your PIN has been reset successfully." "account",
            Some (set_pin user (rf_pin form)), c)
    else (Page "pin_reset.html", Some user, c)
  end.

(** [/reset_pin] (lines 223-237). *)
Definition reset_pin_global (current_user : option Member) (form : ResetPinForm)
           (c : Browser) : page * option Member * Browser :=
  match current_user with
  | None => (LoginRequired, None, c)
  | Some user =>
    if rf_validate_on_submit form then
      if negb (check_password user (rf_password form))
      then (ShowWithError "pin_reset.html" "Incorrect password.", Some user, c)
      else (FlashTo "Your PIN has been reset successfully." "account",
            Some (set_pin user (rf_pin form)), c)
    else (Page "pin_reset.html", Some user, c)
  end.

(** [/account] (lines 242-252). *)
Definition account (current_user : option Member) (c : Browser) : page :=
  match current_user with
  | None => LoginRequired
  | Some me =>
    if not_active_unprivileged (profile me)
    then FlashLogoutTo "Your account is awaiting approval from an administrator."
                       "login"
    else if negb (truthy (pin_hash me)) then GoTo "create_pin"
    else if negb (pin_verified c) then GoTo "account_pin"
    else Page "account.html"
  end.

(** A run of submissions to [/account/pin], one after the other. *)
Fixpoint submit_pins (current_user : option Member) (forms : list PinForm)
         (c : Browser) : Browser :=
  match forms with
  | [] => c
  | f :: fs => submit_pins current_user fs (snd (account_pin current_user f c))
  end.

End Credentials.

(** A submission that [account_pin] takes as a wrong PIN. *)
Definition wrong_pin (check_pin : Member -> string -> bool) (me : Member)
           (f : PinForm) : Prop :=
  pf_validate_on_submit f = true /\ check_pin me (pf_pin f) = false.

(** ** An office, for concrete runs of the routes above *)

Module Office.

(** An installation in which every admin may manage everyone. *)
Definition anyone : User -> User -> bool := fun _ _ => true.

(** Stand-ins for the hash functions, which are outside the sources. *)
Definition zeros : string :=
  "0000000000000000000000000000000000000000000000000000000000000000".
Definition digest (s : string) : string := substring 0 64 (s ++ zeros).
Definition hasher (s : string) : string := "$2b$" ++ s.
Definition checker (m : Member) (s : string) : bool :=
  match password_hash m with
  | Some h => String.eqb h ("$2b$" ++ s)
  | None => false
  end.
Definition pin_hasher (s : string) : string := "pin:" ++ s.
Definition pin_checker (m : Member) (s : string) : bool :=
  match pin_hash m with
  | Some h => String.eqb h ("pin:" ++ s)
  | None => false
  end.
Definition local_only (url : string) : string :=
  if String.prefix "/" url then "" else url.

Definition alice : Member :=
  mkMember Bank.alice (Some (hasher "Passw0rd!")) (Some (pin_hasher "1234")).
Definition bob : Member := mkMember Bank.bob (Some (hasher "S3cret?x")) None.
Definition dave : Member := mkMember Bank.dave (Some (digest "hunter2")) None.

Definition staff : list Member := [alice; bob; dave].

Definition fresh : Browser := mkBrowser None false.

Definition pin (p : string) : PinForm := mkPinForm true p.

End Office.

(** ** Case analysis of a route *)

(** Split on the scrutinee of the outermost conditional of the goal. *)
Ltac branch :=
  match goal with
  | |- context [match ?x with _ => _ end] =>
    lazymatch x with
    | context [match _ with _ => _ end] => fail
    | _ => destruct x eqn:?
    end
  end.

Ltac branches := repeat (branch; simpl in *; try discriminate; try congruence).

(** * Properties *)

(** ** [float(x)]: one correct rounding *)

(** [round_half_even a b] is within one half of [a / b], and even when it is
    exactly one half away. *)
Lemma round_half_even_spec a b :
  0 < b ->
  (2 * round_half_even a b - 1) * b <= 2 * a <= (2 * round_half_even a b + 1) * b
  /\ (2 * a = (2 * round_half_even a b + 1) * b \/
      2 * a = (2 * round_half_even a b - 1) * b -> Z.even (round_half_even a b) = true).
Proof.
  intros Hb. unfold round_half_even.
  pose proof (Z.div_mod a b ltac:(lia)) as Hdm.
  pose proof (Z.mod_pos_bound a b Hb) as Hr.
  set (q := a / b) in *. set (r := a mod b) in *.
  destruct (Z.ltb_spec (2 * r) b) as [H1|H1].
  - split; [nia|]. intros [H|H]; exfalso; nia.
  - destruct (Z.ltb_spec b (2 * r)) as [H2|H2].
    + split; [nia|]. intros [H|H]; exfalso; nia.
    + assert (2 * r = b) by lia.
      destruct (Z.even q) eqn:Hq.
      * split; [nia|]. intros _. exact Hq.
      * split; [nia|]. intros _.
        replace (q + 1) with (Z.succ q) by lia.
        rewrite Z.even_succ, <- Z.negb_even, Hq. reflexivity.
Qed.

Lemma half_nearest a b m j :
  0 < b -> (2 * m - 1) * b <= 2 * a <= (2 * m + 1) * b ->
  Z.abs (a - m * b) <= Z.abs (a - j * b).
Proof.
  intros Hb H.
  assert (j <= m - 1 \/ j = m \/ m + 1 <= j) as [Hj|[Hj|Hj]] by lia.
  - assert (j * b <= (m - 1) * b) by (apply Z.mul_le_mono_nonneg_r; lia). lia.
  - subst. lia.
  - assert ((m + 1) * b <= j * b) by (apply Z.mul_le_mono_nonneg_r; lia). lia.
Qed.

Lemma half_tie a b m j :
  0 < b -> (2 * m - 1) * b <= 2 * a <= (2 * m + 1) * b ->
  j <> m -> Z.abs (a - j * b) = Z.abs (a - m * b) ->
  2 * a = (2 * m + 1) * b \/ 2 * a = (2 * m - 1) * b.
Proof.
  intros Hb H Hne He.
  assert (j <= m - 1 \/ m + 1 <= j) as [Hj|Hj] by lia.
  - assert (j * b <= (m - 1) * b) by (apply Z.mul_le_mono_nonneg_r; lia). lia.
  - assert ((m + 1) * b <= j * b) by (apply Z.mul_le_mono_nonneg_r; lia). lia.
Qed.

(** At the chosen exponent [N / d] lies below [2 ^ 53], and from [2 ^ 52] on
    outside the subnormal range. *)
Lemma binary64_exponent_spec N d :
  0 < N -> 0 < d ->
  0 <= binary64_exponent N d
  /\ N < 2 ^ 53 * (d * 2 ^ binary64_exponent N d)
  /\ (0 < binary64_exponent N d -> 2 ^ 52 * (d * 2 ^ binary64_exponent N d) <= N).
Proof.
  intros HN Hd. unfold binary64_exponent.
  pose proof (Z.log2_spec N HN) as [HN1 HN2].
  pose proof (Z.log2_spec d Hd) as [Hd1 Hd2].
  pose proof (Z.log2_nonneg N) as HlN. pose proof (Z.log2_nonneg d) as Hld.
  set (lN := Z.log2 N) in *. set (ld := Z.log2 d) in *.
  replace (Z.succ lN) with (lN + 1) in HN2 by lia.
  replace (Z.succ ld) with (ld + 1) in Hd2 by lia.
  assert (Hp : 0 < 2 ^ ld) by (apply Z.pow_pos_nonneg; lia).
  destruct (Z.ltb_spec (lN - ld) 53) as [Hk|Hk].
  - split; [lia|]. split; [|lia].
    rewrite Z.pow_0_r, Z.mul_1_r.
    assert (2 ^ (lN + 1) <= 2 ^ (ld + 53)) by (apply Z.pow_le_mono_r; lia).
    rewrite (Z.pow_add_r 2 ld 53) in H by lia.
    assert (2 ^ ld * 2 ^ 53 <= d * 2 ^ 53) by (apply Z.mul_le_mono_nonneg_r; lia).
    lia.
  - set (k := lN - ld) in *.
    assert (HlN' : lN = ld + k) by lia.
    destruct (Z.ltb_spec N (d * 2 ^ k)) as [Hc|Hc].
    + split; [lia|].
      replace (2 ^ 53 * (d * 2 ^ (k - 53))) with (d * 2 ^ k)
        by (replace k with ((k - 53) + 53) at 1 by lia;
            rewrite Z.pow_add_r by lia; ring).
      split; [exact Hc|]. intros Hpos.
      replace (2 ^ 52 * (d * 2 ^ (k - 53))) with (d * 2 ^ (k - 1))
        by (replace (k - 1) with ((k - 53) + 52) by lia;
            rewrite Z.pow_add_r by lia; ring).
      assert (0 < 2 ^ (k - 1)) by (apply Z.pow_pos_nonneg; lia).
      assert (d * 2 ^ (k - 1) <= 2 ^ (ld + 1) * 2 ^ (k - 1))
        by (apply Z.mul_le_mono_nonneg_r; lia).
      rewrite <- Z.pow_add_r in H0 by lia.
      replace (ld + 1 + (k - 1)) with lN in H0 by lia. lia.
    + split; [lia|].
      replace (2 ^ 52 * (d * 2 ^ (k - 52))) with (d * 2 ^ k)
        by (replace k with ((k - 52) + 52) at 1 by lia;
            rewrite Z.pow_add_r by lia; ring).
      split; [|intros _; exact Hc].
      replace (2 ^ 53 * (d * 2 ^ (k - 52))) with (d * 2 ^ (k + 1))
        by (replace (k + 1) with ((k - 52) + 53) by lia;
            rewrite Z.pow_add_r by lia; ring).
      assert (0 < 2 ^ (k + 1)) by (apply Z.pow_pos_nonneg; lia).
      assert (2 ^ ld * 2 ^ (k + 1) <= d * 2 ^ (k + 1))
        by (apply Z.mul_le_mono_nonneg_r; lia).
      rewrite <- Z.pow_add_r in H0 by lia.
      replace (ld + (k + 1)) with (lN + 1) in H0 by lia. lia.
Qed.

Lemma pow2_pos t : 0 <= t -> 0 < 2 ^ t.
Proof. intros. apply Z.pow_pos_nonneg; lia. Qed.

Lemma pow2_split t t' : 0 <= t -> t <= t' -> 2 ^ t' = 2 ^ (t' - t) * 2 ^ t.
Proof.
  intros. rewrite <- Z.pow_add_r by lia. f_equal. lia.
Qed.

Lemma pow2_double t t' : 0 <= t' -> t' < t -> 2 * 2 ^ t' <= 2 ^ t.
Proof.
  intros. rewrite (pow2_split (t' + 1) t) by lia.
  rewrite (Z.pow_add_r 2 t' 1) by lia. change (2 ^ 1) with 2.
  assert (0 < 2 ^ (t - (t' + 1))) by (apply pow2_pos; lia).
  assert (0 < 2 ^ t') by (apply pow2_pos; lia).
  nia.
Qed.

Section Rounding.

Variables N d : Z.
Hypothesis HN : 0 < N.
Hypothesis Hd : 0 < d.

(** The rounded pair: canonical, nearest among all [m' * 2 ^ t'], even on a
    tie, and placed against the thresholds [(2 ^ 54 - 1) * 2 ^ T] of a
    format whose largest exponent is [T]. *)
Lemma round_to_binary64_spec m t :
  round_to_binary64 N d = (m, t) ->
  0 <= m < 2 ^ 53 /\ 0 <= t /\ (0 < t -> 2 ^ 52 <= m)
  /\ (forall m' t', 0 <= m' < 2 ^ 53 -> 0 <= t' ->
        Z.abs (N - m * 2 ^ t * d) <= Z.abs (N - m' * 2 ^ t' * d))
  /\ (forall m' t', 0 <= m' < 2 ^ 53 -> 0 <= t' ->
        m' * 2 ^ t' <> m * 2 ^ t ->
        Z.abs (N - m' * 2 ^ t' * d) = Z.abs (N - m * 2 ^ t * d) -> Z.even m = true)
  /\ (m = 0 -> 2 * N <= d)
  /\ (forall T, 0 <= T -> T < t -> (2 ^ 54 - 1) * 2 ^ T * d <= 2 * N)
  /\ (forall T, 0 <= T -> t <= T -> 2 * N < (2 ^ 54 - 1) * 2 ^ T * d).
Proof.
  unfold round_to_binary64.
  destruct (binary64_exponent_spec N d HN Hd) as (Ht0 & Hhi & Hlo).
  set (t0 := binary64_exponent N d) in *.
  assert (HP : 0 < 2 ^ t0) by (apply pow2_pos; exact Ht0).
  assert (HB : 0 < d * 2 ^ t0) by nia.
  destruct (round_half_even_spec N (d * 2 ^ t0) HB) as (Hhalf & Heven).
  set (m0 := round_half_even N (d * 2 ^ t0)) in *.
  set (B := d * 2 ^ t0) in *.
  change (2 ^ 52) with 4503599627370496 in *.
  change (2 ^ 53) with 9007199254740992 in *.
  change (2 ^ 54) with 18014398509481984 in *.
  assert (Hm0 : 0 <= m0 <= 9007199254740992) by nia.
  assert (Hm0lo : 0 < t0 -> 4503599627370496 <= m0) by (intros H; specialize (Hlo H); nia).
  intros Hmt.
  assert (Hval : m * 2 ^ t = m0 * 2 ^ t0
                 /\ (m = m0 /\ t = t0 /\ m0 <> 9007199254740992
                     \/ m = 4503599627370496 /\ t = t0 + 1 /\ m0 = 9007199254740992)).
  { destruct (Z.eqb_spec m0 9007199254740992) as [E|E]; injection Hmt as <- <-.
    - split; [|right; lia]. rewrite Z.pow_add_r by lia. rewrite E. change (2 ^ 1) with 2. ring.
    - split; [reflexivity|left; lia]. }
  destruct Hval as (Hval & Hcase).
  assert (Hdist : Z.abs (N - m * 2 ^ t * d) = Z.abs (N - m0 * B)).
  { unfold B. rewrite Hval. f_equal. ring. }
  assert (Hsame : forall m' t', 0 <= t' -> t0 <= t' ->
            m' * 2 ^ t' * d = (m' * 2 ^ (t' - t0)) * B).
  { intros m' t' H1 H2. unfold B. rewrite (pow2_split t0 t') by lia. ring. }
  assert (Hbelow : forall m' t', 0 <= m' < 9007199254740992 -> 0 <= t' -> t' < t0 ->
            m' * 2 ^ t' * d < 4503599627370496 * B /\ 4503599627370496 * B <= N
            /\ 4503599627370496 <= m0).
  { intros m' t' Hm' Ht' Hlt.
    pose proof (pow2_double t0 t' Ht' Hlt) as Hdbl.
    pose proof (pow2_pos t' Ht') as Hp'.
    split; [|split; [apply Hlo; lia|apply Hm0lo; lia]].
    unfold B.
    assert (m' * (2 ^ t' * d) <= 9007199254740991 * (2 ^ t' * d))
      by (apply Z.mul_le_mono_nonneg_r; nia).
    nia. }
  assert (Hstrict : forall m' t', 0 <= m' < 9007199254740992 -> 0 <= t' -> t' < t0 ->
            Z.abs (N - m0 * B) < Z.abs (N - m' * 2 ^ t' * d)).
  { intros m' t' Hm' Ht' Hlt.
    destruct (Hbelow m' t' Hm' Ht' Hlt) as (Hg & HBN & Hm0').
    assert (4503599627370496 * B <= m0 * B) by (apply Z.mul_le_mono_nonneg_r; lia).
    destruct (Z.le_gt_cases (m0 * B) N) as [Hc|Hc]; [lia|].
    assert (4503599627370497 <= m0) by nia.
    assert (4503599627370496 * B <= (m0 - 1) * B) by (apply Z.mul_le_mono_nonneg_r; lia).
    lia. }
  split; [lia|]. split; [lia|]. split; [lia|].
  split; [|split; [|split; [|split]]].
  - intros m' t' Hm' Ht'. rewrite Hdist.
    destruct (Z.le_gt_cases t0 t') as [Hc|Hc].
    + rewrite (Hsame m' t' Ht' Hc).
      apply half_nearest; assumption.
    + pose proof (Hstrict m' t' Hm' Ht' Hc). lia.
  - intros m' t' Hm' Ht' Hne Heq. rewrite Hdist in Heq.
    destruct (Z.le_gt_cases t0 t') as [Hc|Hc].
    + rewrite (Hsame m' t' Ht' Hc) in Heq.
      assert (Hj : m' * 2 ^ (t' - t0) <> m0).
      { intros Hj. apply Hne. rewrite Hval, <- Hj.
        rewrite (pow2_split t0 t') by lia. ring. }
      pose proof (half_tie N B m0 _ HB Hhalf Hj Heq) as Htie.
      specialize (Heven Htie).
      destruct Hcase as [(-> & _)|(-> & _)]; [exact Heven|reflexivity].
    + pose proof (Hstrict m' t' Hm' Ht' Hc). lia.
  - intros Hz. destruct Hcase as [(E1 & E2 & _)|(E1 & _)]; [|lia].
    assert (m0 = 0) by lia.
    assert (t0 = 0) by lia.
    unfold B in *. replace t0 with 0 in * by lia. subst m0.
    rewrite H in Hhalf. rewrite Z.pow_0_r in Hhalf. lia.
  - intros T HT HTt.
    pose proof (pow2_pos T HT) as HpT.
    destruct Hcase as [(E1 & E2 & E3)|(E1 & E2 & E3)].
    + assert (0 < t0) by lia.
      pose proof (Hlo H) as Hlo'.
      pose proof (pow2_double t0 T HT ltac:(lia)) as Hdbl.
      unfold B in Hlo'.
      assert (2 * 2 ^ T * d <= 2 ^ t0 * d) by (apply Z.mul_le_mono_nonneg_r; lia).
      nia.
    + assert (2 ^ T <= 2 ^ t0) by (apply Z.pow_le_mono_r; lia).
      assert (2 ^ T * d <= 2 ^ t0 * d) by (apply Z.mul_le_mono_nonneg_r; lia).
      rewrite E3 in Hhalf. unfold B in Hhalf. nia.
  - intros T HT HTt.
    pose proof (pow2_pos T HT) as HpT.
    destruct Hcase as [(E1 & E2 & E3)|(E1 & E2 & E3)].
    + assert (2 ^ t0 <= 2 ^ T) by (apply Z.pow_le_mono_r; lia).
      assert (HBT : B <= 2 ^ T * d)
        by (unfold B; rewrite (Z.mul_comm d); apply Z.mul_le_mono_nonneg_r; lia).
      assert (m0 <= 9007199254740990 \/ m0 = 9007199254740991) as [Hs|Hs] by lia.
      * assert ((2 * m0 + 1) * B <= 18014398509481981 * B)
          by (apply Z.mul_le_mono_nonneg_r; lia).
        nia.
      * assert (2 * N <> (2 * m0 + 1) * B).
        { intros Htie. specialize (Heven (or_introl Htie)).
          rewrite Hs in Heven. discriminate Heven. }
        rewrite Hs in *. nia.
    + pose proof (pow2_double T t0 Ht0 ltac:(lia)) as Hdbl.
      rewrite E3 in Hhalf. unfold B in Hhalf.
      assert (2 * 2 ^ t0 * d <= 2 ^ T * d) by (apply Z.mul_le_mono_nonneg_r; lia).
      nia.
Qed.

End Rounding.

Lemma digits2_pos_spec p :
  2 ^ (Z.pos (digits2_pos p) - 1) <= Z.pos p < 2 ^ Z.pos (digits2_pos p).
Proof.
  induction p as [p IH|p IH|]; cbn [digits2_pos].
  - rewrite Pos2Z.inj_succ. unfold Z.succ.
    replace (Z.pos (digits2_pos p) + 1 - 1) with ((Z.pos (digits2_pos p) - 1) + 1) by lia.
    rewrite !Z.pow_add_r by lia. change (2 ^ 1) with 2. lia.
  - rewrite Pos2Z.inj_succ. unfold Z.succ.
    replace (Z.pos (digits2_pos p) + 1 - 1) with ((Z.pos (digits2_pos p) - 1) + 1) by lia.
    rewrite !Z.pow_add_r by lia. change (2 ^ 1) with 2. lia.
  - cbn. lia.
Qed.

Lemma bounded_binary64 p t :
  Z.pos p < 2 ^ 53 -> 0 <= t <= 2045 -> (0 < t -> 2 ^ 52 <= Z.pos p) ->
  bounded prec emax p (t - 1074) = true.
Proof.
  intros Hp Ht Hn.
  pose proof (digits2_pos_spec p) as [Hd1 Hd2].
  set (D := Z.pos (digits2_pos p)) in *.
  assert (HD : D <= 53).
  { destruct (Z.le_gt_cases D 53) as [H|H]; [exact H|].
    assert (2 ^ 53 <= 2 ^ (D - 1)) by (apply Z.pow_le_mono_r; lia). lia. }
  assert (HD' : 0 < t -> D = 53).
  { intros H. specialize (Hn H).
    destruct (Z.le_gt_cases D 52) as [H'|H']; [|lia].
    assert (2 ^ D <= 2 ^ 52) by (apply Z.pow_le_mono_r; unfold D; lia). lia. }
  unfold bounded, canonical_mantissa, fexp, emin.
  fold D. change prec with 53. change emax with 1024.
  apply andb_true_intro. split.
  - apply Z.eqb_eq. lia.
  - apply Z.leb_le. lia.
Qed.

(** The conversion yields a valid binary64 value, of the numeral's sign, that
    is the correctly rounded quotient. *)
Theorem nearest_binary64_correct s n d :
  0 < n -> 0 < d ->
  valid_binary (nearest_binary64 s n d) = true
  /\ sign_bit (nearest_binary64 s n d) = Some s
  /\ correctly_rounded n d (nearest_binary64 s n d).
Proof.
  intros Hn Hd. unfold nearest_binary64.
  assert (HN : 0 < n * 2 ^ 1074) by (pose proof (pow2_pos 1074 ltac:(lia)); nia).
  destruct (round_to_binary64 (n * 2 ^ 1074) d) as [m t] eqn:E.
  destruct (round_to_binary64_spec _ _ HN Hd _ _ E)
    as (Hm & Ht & Hnorm & Hnear & Htie & Hzero & Hover & Hfin).
  destruct (Z.eqb_spec m 0) as [Hm0|Hm0].
  - split; [reflexivity|]. split; [reflexivity|]. exact (Hzero Hm0).
  - destruct (Z.ltb_spec 2045 t) as [Hbig|Hbig].
    + split; [reflexivity|]. split; [reflexivity|].
      apply (Hover 2045); lia.
    + assert (Hpos : Z.pos (Z.to_pos m) = m) by (apply Z2Pos.id; lia).
      split; [|split; [reflexivity|]].
      * cbn [SpecFloat.valid_binary]. apply bounded_binary64; rewrite ?Hpos; lia.
      * cbn [correctly_rounded]. rewrite Hpos. unfold distance.
        replace (t - 1074 + 1074) with t by lia.
        split; [split; [lia|split; [lia|intros H; apply Hnorm; lia]]|].
        split; [apply (Hfin 2045); lia|].
        split.
        -- intros m' e' Hm' He'. apply Hnear; lia.
        -- intros m' e' Hm' He' Hne Heq. apply (Htie m' (e' + 1074)); try lia; assumption.
Qed.

Theorem py_float_sf_valid x : valid_binary (py_float_sf x) = true.
Proof.
  unfold py_float_sf. destruct (Z.eqb_spec (unscaled x) 0) as [H|H]; [reflexivity|].
  apply nearest_binary64_correct; [lia|]. apply Z.pow_pos_nonneg; lia.
Qed.

(** The primitive float [py_float] returns denotes exactly the value computed
    on integers. *)
Theorem py_float_is_py_float_sf x : Prim2SF (py_float x) = py_float_sf x.
Proof. apply Prim2SF_SF2Prim, py_float_sf_valid. Qed.

(** [float(x)] rounds once, to nearest, ties to even, whatever the size of
    the numeral. *)
Theorem py_float_rounds_once x :
  unscaled x <> 0 ->
  sign_bit (Prim2SF (py_float x)) = Some (unscaled x <? 0)
  /\ correctly_rounded (Z.abs (unscaled x)) (10 ^ Z.of_nat (places x)) (Prim2SF (py_float x)).
Proof.
  intros H. rewrite py_float_is_py_float_sf. unfold py_float_sf.
  destruct (Z.eqb_spec (unscaled x) 0) as [H0|_]; [contradiction|].
  apply nearest_binary64_correct; [lia|]. apply Z.pow_pos_nonneg; lia.
Qed.

(** The numerals of the small bank, converted. *)
Lemma py_float_d50 : py_float Bank.d50 = 50%float.
Proof. vm_compute. reflexivity. Qed.

Lemma py_float_d100 : py_float Bank.d100 = 100%float.
Proof. vm_compute. reflexivity. Qed.

Lemma py_float_d150 : py_float Bank.d150 = 150%float.
Proof. vm_compute. reflexivity. Qed.

(** ** The model at work *)

(** alice sends bob 50.00: both balances move and one record is committed. *)
Example transfer_50_to_bob :
  handle (execute_transfer (Core.transfer_money false 7) Bank.db0 1
            (Bank.confirm_to "bob" Bank.d50))
  = (Flash (Transferred 50 "bob") "account",
     commit (mkDb Bank.store0
               (mkStore [set_balance Bank.alice 50; set_balance Bank.bob 50;
                         Bank.carol; Bank.dave; Bank.erin; Bank.mallory]
                        [mkTransaction (Some 1) (Some 2) (Some 50%float)
                                       "transfer" "" 7]))).
Proof. reflexivity. Qed.

(** alice sends her whole balance: she is left with exactly zero. *)
Example transfer_drains_to_zero :
  option_map balance
    (query_get (persisted (snd (handle (execute_transfer
                  (Core.transfer_money false 7) Bank.db0 1
                  (Bank.confirm_to "bob" Bank.d100))))) 1)
  = Some 0%float.
Proof. reflexivity. Qed.

(** [float(x)] neither wraps nor rounds twice: 2^63 + 50 becomes 2^63,
    10^-63 a positive value near it, and 90071992547409.93 the binary64 value
    Python prints as 90071992547409.94. *)
Example py_float_of_long_numerals :
  Prim2SF (py_float Bank.huge) = S754_finite false 4503599627370496 11
  /\ Prim2SF (py_float Bank.tiny) = S754_finite false 7410693711188237 (-262)
  /\ Prim2SF (py_float Bank.long) = S754_finite false 5764607523034236 (-6).
Proof. vm_compute. repeat split. Qed.

(** alice, who holds 100, submits 2^63 + 50: the transfer is refused and
    nothing changes. *)
Example huge_transfer_is_refused :
  handle (execute_transfer (Core.transfer_money false 7) Bank.db0 1
            (Bank.confirm_to "bob" Bank.huge))
  = (Flash TransferFailed "transfer", Bank.db0).
Proof. vm_compute. reflexivity. Qed.

(** alice submits 10^-63: a positive amount within her balance, so the
    transfer is executed. *)
Example tiny_transfer_is_executed :
  fst (handle (execute_transfer (Core.transfer_money false 7) Bank.db0 1
                 (Bank.confirm_to "bob" Bank.tiny)))
  = Flash (Transferred (py_float Bank.tiny) "bob") "account".
Proof. vm_compute. reflexivity. Qed.

(** ** Floats: the two comparisons the routes and the core use *)

Lemma SFleb_not_SFltb (a b : spec_float) :
  SFleb a b = true -> SFltb b a = false.
Proof.
  unfold SFleb, SFltb, SFcompare.
  destruct a as [[]|[]| |[] m e], b as [[]|[]| |[] m' e'];
    try reflexivity; try discriminate.
  all: rewrite (Z.compare_antisym e e');
    change (Pos.compare_cont Eq m' m) with (Pos.compare m' m);
    change (Pos.compare_cont Eq m m') with (Pos.compare m m');
    rewrite (Pos.compare_antisym m m');
    destruct (Z.compare e e'), (Pos.compare m m'); simpl;
    try discriminate; try reflexivity.
Qed.

Lemma leb_not_ltb (x y : float) :
  PrimFloat.leb x y = true -> PrimFloat.ltb y x = false.
Proof. rewrite FloatAxioms.leb_spec, FloatAxioms.ltb_spec. apply SFleb_not_SFltb. Qed.

Lemma ltb_not_leb (x y : float) :
  PrimFloat.ltb x y = true -> PrimFloat.leb y x = false.
Proof.
  intros H. destruct (PrimFloat.leb y x) eqn:E; [|reflexivity].
  apply leb_not_ltb in E. congruence.
Qed.

(** ** Eligibility: the guard of the routes is the negated predicate *)

Lemma guard_is_not_eligible (u : User) :
  not_active_unprivileged u = negb (eligible u).
Proof.
  unfold not_active_unprivileged, eligible.
  destruct (String.eqb (status u) "active"), (is_admin u), (is_manager u); reflexivity.
Qed.

Lemma eligible_passes_guard (u : User) :
  eligible u = true -> not_active_unprivileged u = false.
Proof. intros H. rewrite guard_is_not_eligible, H. reflexivity. Qed.

Lemma ineligible_fails_guard (u : User) :
  eligible u = false -> not_active_unprivileged u = true.
Proof. intros H. rewrite guard_is_not_eligible, H. reflexivity. Qed.

(** ** The store *)

Lemma db_eta (db : Db) : mkDb (persisted db) (session db) = db.
Proof. destruct db; reflexivity. Qed.

Lemma find_map_preserved {A : Type} (p : A -> bool) (g : A -> A) (l : list A) :
  (forall x, p (g x) = p x) ->
  find p (map g l) = option_map g (find p l).
Proof.
  intros Hp. induction l as [|x l IH]; simpl; [reflexivity|].
  rewrite Hp. destruct (p x); [reflexivity | exact IH].
Qed.

Lemma query_get_id (st : Store) (uid : Z) (u : User) :
  query_get st uid = Some u -> id u = uid.
Proof.
  unfold query_get. intros H. apply find_some in H. destruct H as [_ H].
  apply Z.eqb_eq in H. exact H.
Qed.

Lemma query_get_update (st : Store) (uid j : Z) (f : User -> User) :
  (forall u, id (f u) = id u) ->
  query_get (update_user st uid f) j =
  option_map (fun u => if Z.eqb (id u) uid then f u else u) (query_get st j).
Proof.
  intros Hf. unfold query_get, update_user. simpl.
  apply find_map_preserved. intros x.
  destruct (Z.eqb (id x) uid); [rewrite Hf|]; reflexivity.
Qed.

Lemma query_by_account_number_update (st : Store) (uid : Z) (acct : string)
      (f : User -> User) :
  (forall u, account_number (f u) = account_number u) ->
  query_by_account_number (update_user st uid f) acct =
  option_map (fun u => if Z.eqb (id u) uid then f u else u)
             (query_by_account_number st acct).
Proof.
  intros Hf. unfold query_by_account_number, update_user. simpl.
  apply find_map_preserved. intros x.
  destruct (Z.eqb (id x) uid); [rewrite Hf|]; reflexivity.
Qed.

(** The spec-modelled transfer refuses, and touches nothing, whenever the
    amount exceeds the sender's balance. *)
Lemma core_transfer_refuses_overdraft
      (fails : bool) (now : Z) (st : Store) (self recipient : User) (a : float) :
  PrimFloat.ltb (balance self) a = true ->
  Core.transfer_money fails now st self recipient a = (Return false, st).
Proof.
  intros H. apply ltb_not_leb in H. unfold Core.transfer_money.
  rewrite H. simpl.
  destruct (Z.eqb (id self) (id recipient)); [reflexivity|].
  destruct (negb (PrimFloat.ltb 0 a)); [reflexivity|].
  destruct (negb (eligible self && eligible recipient)); reflexivity.
Qed.

(** When the spec-modelled transfer (or deposit) returns [False], it has
    left the session as it was given. *)
Lemma core_transfer_false_untouched
      (fails : bool) (now : Z) (st st' : Store) (self recipient : User) (a : float) :
  Core.transfer_money fails now st self recipient a = (Return false, st') ->
  st' = st.
Proof.
  unfold Core.transfer_money. intros H.
  repeat match type of H with
         | (if ?b then _ else _) = _ => destruct b
         end; inversion H; reflexivity.
Qed.

Lemma core_deposit_false_untouched
      (fails : bool) (now : Z) (st st' : Store) (self actor : User) (a : float) :
  Core.deposit fails now st self a actor = (Return false, st') ->
  st' = st.
Proof.
  unfold Core.deposit. intros H.
  repeat match type of H with
         | (if ?b then _ else _) = _ => destruct b
         end; inversion H; reflexivity.
Qed.

(** C1. A transfer whose amount exceeds the sender's balance is refused for
    insufficient funds with the whole database (both balances, the ledger)
    as before: on /transfer by the check of lines 280-282 (unless the
    self-transfer check, which comes first, already refused it), on
    /execute_transfer by the model layer's refusal, reported as 'Transfer
    failed. Please check your balance.'.  An amount less than or equal to the
    balance, equality included, passes the check on both paths. *)
Theorem insufficient_funds_rejected :
  forall (db : Db) (uid : Z) (sender : User),
    query_get (session db) uid = Some sender ->
    eligible sender = true ->
    (forall form : TransferForm,
        tf_validate_on_submit form = true ->
        (forall r, find_recipient (session db) (tf_transfer_type form)
                     (tf_recipient_username form) (tf_recipient_account form)
                   = Some r -> id r <> id sender) ->
        PrimFloat.ltb (balance sender) (tf_amount form) = true ->
        transfer db uid form = (Return (Flash InsufficientFunds "transfer"), db))
    /\
    (forall (form : ConfirmTransferForm) (recipient : User)
            (append_fails : bool) (now : Z),
        cf_validate_on_submit form = true ->
        find_recipient (session db) (cf_transfer_type form)
          (cf_recipient_username form) (cf_recipient_account form)
        = Some recipient ->
        eligible recipient = true ->
        PrimFloat.ltb (balance sender) (py_float (cf_amount form)) = true ->
        execute_transfer (Core.transfer_money append_fails now) db uid form
        = (Return (Flash TransferFailed "transfer"), db))
    /\
    (forall (form : ConfirmTransferForm) (append_fails : bool) (now : Z),
        PrimFloat.ltb (balance sender) (py_float (cf_amount form)) = true ->
        succeeded (fst (handle (execute_transfer
                                  (Core.transfer_money append_fails now) db uid form)))
        = false
        /\ snd (handle (execute_transfer
                          (Core.transfer_money append_fails now) db uid form)) = db)
    /\
    (forall form : TransferForm,
        tf_validate_on_submit form = true ->
        PrimFloat.leb (tf_amount form) (balance sender) = true ->
        exists r, transfer db uid form = (r, db)
                  /\ r <> Return (Flash InsufficientFunds "transfer"))
    /\
    (forall (st : Store) (recipient : User) (now : Z) (a : float),
        id sender <> id recipient ->
        eligible recipient = true ->
        PrimFloat.ltb 0 a = true ->
        PrimFloat.leb a (balance sender) = true ->
        exists st', Core.transfer_money false now st sender recipient a
                    = (Return true, st')).
Proof.
  intros db uid sender Hcu Hel.
  pose proof (eligible_passes_guard _ Hel) as Hguard.
  split; [|split; [|split; [|split]]].
  - intros form Hv Hself Hlt. unfold transfer. rewrite Hcu, Hguard, Hv, Hlt.
    destruct (find_recipient _ _ _ _) as [r|] eqn:Hr; [|reflexivity].
    specialize (Hself r eq_refl). apply Z.eqb_neq in Hself. rewrite Hself.
    reflexivity.
  - intros form recipient fails now Hv Hr Helr Hlt. unfold execute_transfer.
    rewrite Hcu, Hguard, Hv, Hr, (eligible_passes_guard _ Helr).
    rewrite (core_transfer_refuses_overdraft _ _ _ _ _ _ Hlt).
    rewrite db_eta. reflexivity.
  - intros form fails now Hlt. unfold execute_transfer.
    rewrite Hcu, Hguard.
    destruct (cf_validate_on_submit form); [|split; reflexivity].
    destruct (find_recipient _ _ _ _) as [r|]; [|split; reflexivity].
    destruct (not_active_unprivileged r); [split; reflexivity|].
    rewrite (core_transfer_refuses_overdraft _ _ _ _ _ _ Hlt).
    simpl. rewrite db_eta. split; reflexivity.
  - intros form Hv Hle. apply leb_not_ltb in Hle. unfold transfer.
    rewrite Hcu, Hguard, Hv, Hle.
    destruct (find_recipient _ _ _ _) as [r|]; [|eexists; split; [reflexivity|discriminate]].
    destruct (Z.eqb (id r) (id sender));
      [eexists; split; [reflexivity|discriminate]|].
    destruct (not_active_unprivileged r);
      eexists; (split; [reflexivity|discriminate]).
  - intros st recipient now a Hne Helr Hpos Hle. unfold Core.transfer_money.
    apply Z.eqb_neq in Hne. rewrite Hne, Hpos, Hel, Helr, Hle. simpl.
    eexists. reflexivity.
Qed.

(** C1, at the small bank: alice holds 100; 150 is refused on both paths,
    and exactly 100 passes the check and is transferred. *)
Lemma insufficient_funds_rejected_witness :
  transfer Bank.db0 1 (Bank.to_bob 150)
  = (Return (Flash InsufficientFunds "transfer"), Bank.db0)
  /\ execute_transfer (Core.transfer_money false 7) Bank.db0 1
       (Bank.confirm_to "bob" Bank.d150)
     = (Return (Flash TransferFailed "transfer"), Bank.db0)
  /\ (exists r, transfer Bank.db0 1 (Bank.to_bob 100) = (r, Bank.db0)
                /\ r <> Return (Flash InsufficientFunds "transfer"))
  /\ (exists st', Core.transfer_money false 7 Bank.store0 Bank.alice Bank.bob 100
                  = (Return true, st')).
Proof.
  destruct (insufficient_funds_rejected Bank.db0 1 Bank.alice eq_refl eq_refl)
    as (H1 & H2 & _ & H3 & H4).
  split; [|split; [|split]].
  - apply (H1 (Bank.to_bob 150)); [reflexivity| |reflexivity].
    intros r Hr. vm_compute in Hr. inversion Hr. simpl. discriminate.
  - apply (H2 (Bank.confirm_to "bob" Bank.d150) Bank.bob false 7); reflexivity.
  - apply (H3 (Bank.to_bob 100)); reflexivity.
  - apply (H4 Bank.store0 Bank.bob 7 100%float); try reflexivity.
    simpl. discriminate.
Defined.

Lemma core_transfer_true_inv
      (fails : bool) (now : Z) (st st' : Store) (self recipient : User) (a : float) :
  Core.transfer_money fails now st self recipient a = (Return true, st') ->
  st' = transferred st self recipient a now /\ fails = false.
Proof.
  unfold Core.transfer_money, transferred. intros H.
  repeat match type of H with
         | (if ?b then _ else _) = _ => destruct b
         end; inversion H; split; reflexivity.
Qed.

Lemma core_deposit_true_inv
      (fails : bool) (now : Z) (st st' : Store) (self actor : User) (a : float) :
  Core.deposit fails now st self a actor = (Return true, st') ->
  st' = deposited st self actor a now /\ fails = false.
Proof.
  unfold Core.deposit, deposited. intros H.
  repeat match type of H with
         | (if ?b then _ else _) = _ => destruct b
         end; inversion H; split; reflexivity.
Qed.

(** On the code, for every model layer: [execute_transfer] commits on the
    [True] branch only, and an escaping exception meets the rollback of the
    500 handler. *)
Lemma execute_transfer_commits_on_success_only
      (tm : Store -> User -> User -> float -> result bool * Store)
      (db : Db) (uid : Z) (form : ConfirmTransferForm) :
  succeeded (fst (handle (execute_transfer tm db uid form))) = false ->
  persisted (snd (handle (execute_transfer tm db uid form))) = persisted db.
Proof. unfold execute_transfer, handle, internal_error. branches. Qed.

Lemma admin_deposit_commits_on_success_only
      (dep : Store -> User -> float -> User -> result bool * Store)
      (db : Db) (uid : Z) (form : DepositForm) :
  succeeded (fst (handle (admin_deposit dep db uid form))) = false ->
  persisted (snd (handle (admin_deposit dep db uid form))) = persisted db.
Proof. unfold admin_deposit, handle, internal_error. branches. Qed.

Lemma execute_transfer_exception_rolled_back
      (tm : Store -> User -> User -> float -> result bool * Store)
      (db db1 : Db) (uid : Z) (form : ConfirmTransferForm) (e : exn) :
  clean db ->
  execute_transfer tm db uid form = (Raise e, db1) ->
  handle (execute_transfer tm db uid form) = (ServerError500, db).
Proof.
  unfold clean. intros Hc H. rewrite H. revert H.
  unfold execute_transfer, handle, internal_error, rollback.
  branches; intros H; inversion H; subst; simpl;
    destruct db; simpl in *; subst; reflexivity.
Qed.

Lemma admin_deposit_exception_rolled_back
      (dep : Store -> User -> float -> User -> result bool * Store)
      (db db1 : Db) (uid : Z) (form : DepositForm) (e : exn) :
  clean db ->
  admin_deposit dep db uid form = (Raise e, db1) ->
  handle (admin_deposit dep db uid form) = (ServerError500, db).
Proof.
  unfold clean. intros Hc H. rewrite H. revert H.
  unfold admin_deposit, handle, internal_error, rollback.
  branches; intros H; inversion H; subst; simpl;
    destruct db; simpl in *; subst; reflexivity.
Qed.

(** The preview route never writes. *)
Lemma transfer_never_mutates (db : Db) (uid : Z) (form : TransferForm) :
  snd (transfer db uid form) = db.
Proof. unfold transfer. branches; reflexivity. Qed.

(** Over the spec-modelled model layer a request that does not succeed
    leaves even the session as it found it. *)
Lemma core_execute_transfer_failure
      (fails : bool) (t : Z) (db : Db) (uid : Z) (form : ConfirmTransferForm) :
  clean db ->
  succeeded (fst (handle (execute_transfer (Core.transfer_money fails t) db uid form)))
  = false ->
  snd (handle (execute_transfer (Core.transfer_money fails t) db uid form)) = db.
Proof.
  unfold clean. intros Hclean.
  unfold execute_transfer, handle, internal_error, rollback.
  branches; intros _; try apply db_eta.
  - match goal with
    | H : Core.transfer_money _ _ _ _ _ _ = (Return false, _) |- _ =>
      apply core_transfer_false_untouched in H; subst
    end.
    apply db_eta.
  - rewrite <- Hclean at 2. apply db_eta.
Qed.

Lemma core_admin_deposit_failure
      (fails : bool) (t : Z) (db : Db) (uid : Z) (form : DepositForm) :
  clean db ->
  succeeded (fst (handle (admin_deposit (Core.deposit fails t) db uid form)))
  = false ->
  snd (handle (admin_deposit (Core.deposit fails t) db uid form)) = db.
Proof.
  unfold clean. intros Hclean.
  unfold admin_deposit, handle, internal_error, rollback.
  branches; intros _; try apply db_eta.
  - match goal with
    | H : Core.deposit _ _ _ _ _ _ = (Return false, _) |- _ =>
      apply core_deposit_false_untouched in H; subst
    end.
    apply db_eta.
  - rewrite <- Hclean at 2. apply db_eta.
Qed.

(** And one that succeeds commits the balance change and its record
    together. *)
Lemma core_execute_transfer_success
      (fails : bool) (t : Z) (db : Db) (uid : Z) (form : ConfirmTransferForm) :
  clean db ->
  succeeded (fst (handle (execute_transfer (Core.transfer_money fails t) db uid form)))
  = true ->
  exists sender recipient,
    query_get (session db) uid = Some sender
    /\ find_recipient (session db) (cf_transfer_type form)
         (cf_recipient_username form) (cf_recipient_account form)
       = Some recipient
    /\ snd (handle (execute_transfer (Core.transfer_money fails t) db uid form))
       = commit (mkDb (persisted db)
                      (transferred (persisted db) sender recipient
                                   (py_float (cf_amount form)) t)).
Proof.
  unfold clean. intros Hclean.
  unfold execute_transfer, handle, internal_error.
  branches; intros _.
  match goal with
  | H : Core.transfer_money _ _ _ ?s ?r _ = (Return true, _) |- _ =>
    apply core_transfer_true_inv in H; destruct H as [H _]; subst;
      exists s, r
  end.
  rewrite Hclean in *. repeat split; assumption || reflexivity.
Qed.

Lemma core_admin_deposit_success
      (fails : bool) (t : Z) (db : Db) (uid : Z) (form : DepositForm) :
  clean db ->
  succeeded (fst (handle (admin_deposit (Core.deposit fails t) db uid form)))
  = true ->
  exists target actor,
    query_by_account_number (session db) (df_account_number form) = Some target
    /\ query_get (session db) uid = Some actor
    /\ snd (handle (admin_deposit (Core.deposit fails t) db uid form))
       = commit (mkDb (persisted db)
                      (deposited (persisted db) target actor (df_amount form) t)).
Proof.
  unfold clean. intros Hclean.
  unfold admin_deposit, handle, internal_error.
  branches; intros _.
  match goal with
  | H : Core.deposit _ _ _ ?u _ ?c = (Return true, _) |- _ =>
    apply core_deposit_true_inv in H; destruct H as [H _]; subst;
      exists u, c
  end.
  rewrite Hclean in *. repeat split; assumption || reflexivity.
Qed.

(** C2. A transfer or deposit that does not succeed, for whatever reason
    (a refusal by a guard or by the model layer, or an exception such as a
    storage fault while the record is appended after the balances were
    tentatively mutated), leaves the database exactly as before the call; one
    that succeeds commits the balance change together with its one matching
    record; so a call after which the ledger has no new record has changed
    nothing.  The first three clauses hold for every model layer: the routes
    commit on success only and the 500 handler rolls back. *)
Theorem failed_operation_changes_nothing :
  forall (db : Db) (uid : Z),
    clean db ->
    (forall form, snd (handle (transfer db uid form)) = db)
    /\
    (forall tm form,
        succeeded (fst (handle (execute_transfer tm db uid form))) = false ->
        persisted (snd (handle (execute_transfer tm db uid form))) = persisted db)
    /\
    (forall dep form,
        succeeded (fst (handle (admin_deposit dep db uid form))) = false ->
        persisted (snd (handle (admin_deposit dep db uid form))) = persisted db)
    /\
    (forall fails t form,
        succeeded (fst (handle (execute_transfer
                                  (Core.transfer_money fails t) db uid form)))
        = false ->
        snd (handle (execute_transfer (Core.transfer_money fails t) db uid form)) = db)
    /\
    (forall fails t form,
        succeeded (fst (handle (admin_deposit (Core.deposit fails t) db uid form)))
        = false ->
        snd (handle (admin_deposit (Core.deposit fails t) db uid form)) = db)
    /\
    (forall fails t form,
        succeeded (fst (handle (execute_transfer
                                  (Core.transfer_money fails t) db uid form)))
        = true ->
        exists sender recipient,
          query_get (session db) uid = Some sender
          /\ find_recipient (session db) (cf_transfer_type form)
               (cf_recipient_username form) (cf_recipient_account form)
             = Some recipient
          /\ snd (handle (execute_transfer
                            (Core.transfer_money fails t) db uid form))
             = commit (mkDb (persisted db)
                            (transferred (persisted db) sender recipient
                                         (py_float (cf_amount form)) t)))
    /\
    (forall fails t form,
        succeeded (fst (handle (admin_deposit (Core.deposit fails t) db uid form)))
        = true ->
        exists target actor,
          query_by_account_number (session db) (df_account_number form) = Some target
          /\ query_get (session db) uid = Some actor
          /\ snd (handle (admin_deposit (Core.deposit fails t) db uid form))
             = commit (mkDb (persisted db)
                            (deposited (persisted db) target actor (df_amount form) t)))
    /\
    (forall fails t form,
        transactions (persisted (snd (handle (execute_transfer
                        (Core.transfer_money fails t) db uid form))))
        = transactions (persisted db) ->
        snd (handle (execute_transfer (Core.transfer_money fails t) db uid form)) = db)
    /\
    (forall fails t form,
        transactions (persisted (snd (handle (admin_deposit
                        (Core.deposit fails t) db uid form))))
        = transactions (persisted db) ->
        snd (handle (admin_deposit (Core.deposit fails t) db uid form)) = db).
Proof.
  intros db uid Hclean.
  split.
  { intros form. pose proof (transfer_never_mutates db uid form) as Hsame.
    destruct (transfer db uid form) as [[x|e] db'] eqn:Hrun; simpl in *; subst.
    - reflexivity.
    - unfold rollback. unfold clean in Hclean.
      destruct db; simpl in *; subst; reflexivity. }
  split; [intros; now apply execute_transfer_commits_on_success_only|].
  split; [intros; now apply admin_deposit_commits_on_success_only|].
  split; [intros; now apply core_execute_transfer_failure|].
  split; [intros; now apply core_admin_deposit_failure|].
  split; [intros; now apply core_execute_transfer_success|].
  split; [intros; now apply core_admin_deposit_success|].
  split.
  - intros fails t form Hsame.
    destruct (succeeded (fst (handle (execute_transfer
                (Core.transfer_money fails t) db uid form)))) eqn:Hs;
      [|now apply core_execute_transfer_failure].
    destruct (core_execute_transfer_success _ _ _ _ _ Hclean Hs)
      as (s & r & _ & _ & Hrun).
    rewrite Hrun in Hsame. simpl in Hsame.
    apply (f_equal (@List.length Transaction)) in Hsame.
    rewrite length_app in Hsame. simpl in Hsame. lia.
  - intros fails t form Hsame.
    destruct (succeeded (fst (handle (admin_deposit
                (Core.deposit fails t) db uid form)))) eqn:Hs;
      [|now apply core_admin_deposit_failure].
    destruct (core_admin_deposit_success _ _ _ _ _ Hclean Hs)
      as (u & c & _ & _ & Hrun).
    rewrite Hrun in Hsame. simpl in Hsame.
    apply (f_equal (@List.length Transaction)) in Hsame.
    rewrite length_app in Hsame. simpl in Hsame. lia.
Qed.

(** C2, at the small bank: a storage fault while the record of a covered
    transfer (or of a deposit) is appended, and an overdraft, each leave the
    database as it was. *)
Lemma failed_operation_changes_nothing_witness :
  handle (execute_transfer (Core.transfer_money true 7) Bank.db0 1
            (Bank.confirm_to "bob" Bank.d50))
  = (ServerError500, Bank.db0)
  /\ handle (admin_deposit (Core.deposit true 7) Bank.db0 5
               (Bank.deposit_to "1000000002" 10))
     = (ServerError500, Bank.db0)
  /\ snd (handle (execute_transfer (Core.transfer_money false 7) Bank.db0 1
                    (Bank.confirm_to "bob" Bank.d150)))
     = Bank.db0.
Proof.
  destruct (failed_operation_changes_nothing Bank.db0 1 eq_refl)
    as (_ & _ & _ & Ht & _).
  destruct (failed_operation_changes_nothing Bank.db0 5 eq_refl)
    as (_ & _ & _ & _ & Hd & _).
  split; [|split].
  - pose proof (Ht true 7 (Bank.confirm_to "bob" Bank.d50) eq_refl) as Hs.
    rewrite (surjective_pairing (handle _)), Hs. reflexivity.
  - pose proof (Hd true 7 (Bank.deposit_to "1000000002" 10) eq_refl) as Hs.
    rewrite (surjective_pairing (handle _)), Hs. reflexivity.
  - apply (Ht false 7 (Bank.confirm_to "bob" Bank.d150)). reflexivity.
Defined.

(** C3. /transfer refuses a self-transfer (lines 276-278), but
    /execute_transfer, the path that moves the money, has no such check: for
    alice naming herself it hands (alice, alice, 50.0) to the model layer and
    reports whatever that returns, as a success or as 'Transfer failed. Please
    check your balance.'; on no input at all does it flash the self-transfer
    message. *)
Theorem execute_transfer_has_no_self_guard :
  forall tm : Store -> User -> User -> float -> result bool * Store,
    transfer Bank.db0 1 (Bank.to_alice 50)
    = (Return (Flash CannotTransferToSelf "transfer"), Bank.db0)
    /\ execute_transfer tm Bank.db0 1 (Bank.confirm_to "alice" Bank.d50)
       = match tm Bank.store0 Bank.alice Bank.alice 50%float with
         | (Return true, st) =>
           (Return (Flash (Transferred 50 "alice") "account"), mkDb st st)
         | (Return false, st) =>
           (Return (Flash TransferFailed "transfer"), mkDb Bank.store0 st)
         | (Raise e, st) => (Raise e, mkDb Bank.store0 st)
         end
    /\ execute_transfer (Core.transfer_money false 7) Bank.db0 1
         (Bank.confirm_to "alice" Bank.d50)
       = (Return (Flash TransferFailed "transfer"), Bank.db0)
    /\ (forall db uid form,
           match fst (execute_transfer tm db uid form) with
           | Return (Flash CannotTransferToSelf _) => False
           | _ => True
           end).
Proof.
  intros tm. split; [reflexivity|]. split; [|split; [reflexivity|]].
  - unfold execute_transfer. simpl.
    change (py_float Bank.d50) with 50%float.
    destruct (tm Bank.store0 Bank.alice Bank.alice 50%float) as [[[|]|e] st];
      reflexivity.
  - intros db uid form. unfold execute_transfer. branches; exact I.
Qed.

(** The missed case of /transfer, in general: once the funds suffice, an
    unresolved recipient reaches [recipient.status]. *)
Lemma transfer_unresolved_recipient_raises
      (db : Db) (uid : Z) (sender : User) (form : TransferForm) :
  query_get (session db) uid = Some sender ->
  eligible sender = true ->
  tf_validate_on_submit form = true ->
  find_recipient (session db) (tf_transfer_type form)
    (tf_recipient_username form) (tf_recipient_account form) = None ->
  PrimFloat.ltb (balance sender) (tf_amount form) = false ->
  transfer db uid form = (Raise AttributeError, db).
Proof.
  intros Hcu Hel Hv Hr Hlt. unfold transfer.
  rewrite Hcu, (eligible_passes_guard _ Hel), Hv, Hr, Hlt. reflexivity.
Qed.

(** C4. A transfer to a recipient that does not exist is reported as not
    found by /execute_transfer (lines 326-328) and a deposit to an unknown
    account by /admin/deposit, but /transfer dereferences the missing
    recipient (line 285): alice sending 10 to 'ghost' raises AttributeError and
    is answered by the 500 page.  The database is unchanged in each case. *)
Theorem transfer_to_unknown_recipient_raises :
  transfer Bank.db0 1 (Bank.to_ghost 10) = (Raise AttributeError, Bank.db0)
  /\ handle (transfer Bank.db0 1 (Bank.to_ghost 10)) = (ServerError500, Bank.db0)
  /\ (forall tm,
         execute_transfer tm Bank.db0 1 (Bank.confirm_to "ghost" Bank.d50)
         = (Return (Flash RecipientNotFound "transfer"), Bank.db0))
  /\ (forall dep,
         admin_deposit dep Bank.db0 5 (Bank.deposit_to "1999999999" 10)
         = (Return (Flash UserNotFound "admin_deposit"), Bank.db0)).
Proof. repeat split. Qed.

(** C5, as stated, fails.  At a bank where vault holds 10^16, an admin
    deposits 1: the amount is positive, the target eligible, the deposit is
    reported as made and one deposit record with a null sender is committed,
    but the balance committed for vault is 10^16 as before, not 10^16 + 1,
    which is no binary64 value. *)
Lemma deposit_of_one_is_absorbed :
  PrimFloat.ltb 0 1 = true
  /\ eligible Bank.vault = true
  /\ Prim2SF (balance Bank.vault) = S754_finite false 5000000000000000 1
  /\ fst (handle (admin_deposit (Core.deposit false 7) Bank.db_vault 5
                    (Bank.deposit_to "1000000007" 1)))
     = Flash (Deposited 1 "vault") "admin_dashboard"
  /\ transactions
       (persisted (snd (handle (admin_deposit (Core.deposit false 7) Bank.db_vault 5
                                  (Bank.deposit_to "1000000007" 1)))))
     = [mkTransaction None (Some 7) (Some 1%float) "deposit"
                      "Deposit by admin erin" 7]
  /\ option_map balance
       (query_by_account_number
          (persisted (snd (handle (admin_deposit (Core.deposit false 7) Bank.db_vault 5
                                     (Bank.deposit_to "1000000007" 1)))))
          "1000000007")
     = Some (balance Bank.vault)
  /\ option_map (fun u => Prim2SF (balance u))
       (query_by_account_number
          (persisted (snd (handle (admin_deposit (Core.deposit false 7) Bank.db_vault 5
                                     (Bank.deposit_to "1000000007" 1)))))
          "1000000007")
     = Some (S754_finite false 5000000000000000 1).
Proof. vm_compute. repeat split. Qed.

(** C5, amended.  A deposit of a positive amount to an eligible account,
    made by an admin, is committed: the balance stored for the target is the
    binary64 sum of its old balance and the amount, every other balance and
    every other field of every account is as before, and the ledger gained
    exactly one record, of kind deposit, with a null sender and the target
    as receiver. *)
Theorem deposit_credits_target :
  forall (db : Db) (uid : Z) (actor target : User) (form : DepositForm) (now : Z),
    clean db ->
    query_get (session db) uid = Some actor ->
    is_admin actor = true ->
    df_validate_on_submit form = true ->
    query_by_account_number (session db) (df_account_number form) = Some target ->
    eligible target = true ->
    PrimFloat.ltb 0 (df_amount form) = true ->
    fst (handle (admin_deposit (Core.deposit false now) db uid form))
    = Flash (Deposited (df_amount form) (username target)) "admin_dashboard"
    /\ clean (snd (handle (admin_deposit (Core.deposit false now) db uid form)))
    /\ option_map balance
         (query_by_account_number
            (persisted (snd (handle (admin_deposit (Core.deposit false now) db uid form))))
            (df_account_number form))
       = Some (PrimFloat.add (balance target) (df_amount form))
    /\ map balance
         (users (persisted (snd (handle (admin_deposit (Core.deposit false now)
                                          db uid form)))))
       = map (fun u => if Z.eqb (id u) (id target)
                       then PrimFloat.add (balance u) (df_amount form)
                       else balance u)
             (users (persisted db))
    /\ map (fun u => (id u, username u, account_number u, status u,
                      is_admin u, is_manager u))
         (users (persisted (snd (handle (admin_deposit (Core.deposit false now)
                                          db uid form)))))
       = map (fun u => (id u, username u, account_number u, status u,
                        is_admin u, is_manager u))
             (users (persisted db))
    /\ query_by_account_number
         (persisted (snd (handle (admin_deposit (Core.deposit false now) db uid form))))
         (df_account_number form)
       = Some (set_balance target (PrimFloat.add (balance target) (df_amount form)))
    /\ users (persisted (snd (handle (admin_deposit (Core.deposit false now) db uid form))))
       = map (fun u => if Z.eqb (id u) (id target)
                       then set_balance u (PrimFloat.add (balance u) (df_amount form))
                       else u)
             (users (persisted db))
    /\ transactions
         (persisted (snd (handle (admin_deposit (Core.deposit false now) db uid form))))
       = (transactions (persisted db)
          ++ [mkTransaction None (Some (id target)) (Some (df_amount form)) "deposit"
                            ("Deposit by admin " ++ username actor) now])%list.
Proof.
  intros db uid actor target form now Hclean Hcu Hadm Hv Ht Hel Hpos.
  unfold clean in Hclean.
  assert (Hrun : handle (admin_deposit (Core.deposit false now) db uid form)
                 = (Flash (Deposited (df_amount form) (username target)) "admin_dashboard",
                    commit (mkDb (persisted db)
                              (deposited (session db) target actor (df_amount form) now)))).
  { unfold admin_deposit. rewrite Hcu, Hadm, Hv, Ht, (eligible_passes_guard _ Hel).
    unfold Core.deposit. rewrite Hpos, Hel. reflexivity. }
  rewrite Hrun. cbn [fst snd commit persisted session clean]. rewrite <- Hclean.
  assert (Hq : query_by_account_number
                 (deposited (session db) target actor (df_amount form) now)
                 (df_account_number form)
               = Some (set_balance target
                         (PrimFloat.add (balance target) (df_amount form)))).
  { unfold deposited.
    change (query_by_account_number (session_add ?s ?t) ?a)
      with (query_by_account_number s a).
    rewrite query_by_account_number_update by reflexivity.
    rewrite Ht. simpl. rewrite Z.eqb_refl. reflexivity. }
  split; [reflexivity|]. split; [reflexivity|].
  split; [rewrite Hq; reflexivity|].
  split.
  { unfold deposited. cbn [users session_add update_user].
    rewrite map_map. apply map_ext. intros u.
    destruct (Z.eqb (id u) (id target)); reflexivity. }
  split.
  { unfold deposited. cbn [users session_add update_user].
    rewrite map_map. apply map_ext. intros u.
    destruct (Z.eqb (id u) (id target)); reflexivity. }
  split; [exact Hq|]. split; reflexivity.
Qed.

(** C5 amended, at the small bank: erin (an admin) deposits 10 to bob, who
    held 0. *)
Lemma deposit_credits_target_witness :
  option_map balance
    (query_by_account_number
       (persisted (snd (handle (admin_deposit (Core.deposit false 7) Bank.db0 5
                                  (Bank.deposit_to "1000000002" 10)))))
       "1000000002")
  = Some 10%float
  /\ map balance
       (users (persisted (snd (handle (admin_deposit (Core.deposit false 7) Bank.db0 5
                                         (Bank.deposit_to "1000000002" 10))))))
     = [100%float; 10%float; 40%float; 0%float; 0%float; 0%float]
  /\ transactions
       (persisted (snd (handle (admin_deposit (Core.deposit false 7) Bank.db0 5
                                  (Bank.deposit_to "1000000002" 10)))))
     = [mkTransaction None (Some 2) (Some 10%float) "deposit"
                      "Deposit by admin erin" 7].
Proof.
  destruct (deposit_credits_target Bank.db0 5 Bank.erin Bank.bob
              (Bank.deposit_to "1000000002" 10) 7
              eq_refl eq_refl eq_refl eq_refl eq_refl eq_refl eq_refl)
    as (_ & _ & Hb & Hall & _ & _ & _ & Ht).
  split; [exact Hb | split; [exact Hall | exact Ht]].
Defined.

(** C6. A deposit whose target is not active (deactivated, pending, or any
    other status) and is neither admin nor manager is refused with 'Cannot
    deposit to inactive account.', whatever the model layer, and the database,
    the target's balance included, is as before. *)
Theorem deposit_to_inactive_rejected :
  forall (dep : Store -> User -> float -> User -> result bool * Store)
         (db : Db) (uid : Z) (actor target : User) (form : DepositForm),
    query_get (session db) uid = Some actor ->
    is_admin actor = true ->
    df_validate_on_submit form = true ->
    query_by_account_number (session db) (df_account_number form) = Some target ->
    status target <> "active" ->
    is_admin target = false ->
    is_manager target = false ->
    handle (admin_deposit dep db uid form)
    = (Flash CannotDepositInactive "admin_deposit", db).
Proof.
  intros dep db uid actor target form Hcu Hadm Hv Ht Hst Ha Hm.
  unfold admin_deposit. rewrite Hcu, Hadm, Hv, Ht. simpl.
  unfold not_active_unprivileged. rewrite Ha, Hm.
  apply String.eqb_neq in Hst. rewrite Hst. reflexivity.
Qed.

(** C6, at the small bank: deposits to carol (deactivated) and to dave
    (pending) are refused. *)
Lemma deposit_to_inactive_rejected_witness :
  handle (admin_deposit (Core.deposit false 7) Bank.db0 5
            (Bank.deposit_to "1000000003" 10))
  = (Flash CannotDepositInactive "admin_deposit", Bank.db0)
  /\ handle (admin_deposit (Core.deposit false 7) Bank.db0 5
               (Bank.deposit_to "1000000004" 10))
     = (Flash CannotDepositInactive "admin_deposit", Bank.db0).
Proof.
  split.
  - apply (deposit_to_inactive_rejected (Core.deposit false 7) Bank.db0 5
             Bank.erin Bank.carol (Bank.deposit_to "1000000003" 10));
      try reflexivity.
    simpl. discriminate.
  - apply (deposit_to_inactive_rejected (Core.deposit false 7) Bank.db0 5
             Bank.erin Bank.dave (Bank.deposit_to "1000000004" 10));
      try reflexivity.
    simpl. discriminate.
Defined.



(** ** The history query *)

Lemma involves_iff (uid : Z) (t : Transaction) :
  involves uid t = true <-> sender_id t = Some uid \/ receiver_id t = Some uid.
Proof.
  unfold involves, sql_selected, sql_or, sql_eq.
  destruct (sender_id t) as [s|], (receiver_id t) as [r|]; simpl.
  - destruct (Z.eqb_spec s uid), (Z.eqb_spec r uid); subst;
      split; intros H; auto; try discriminate;
      destruct H as [H|H]; inversion H; congruence.
  - destruct (Z.eqb_spec s uid); subst;
      split; intros H; auto; try discriminate;
      destruct H as [H|H]; inversion H; congruence.
  - destruct (Z.eqb_spec r uid); subst;
      split; intros H; auto; try discriminate;
      destruct H as [H|H]; inversion H; congruence.
  - split; intros H; [discriminate | destruct H; discriminate].
Qed.

Lemma insert_desc_perm (t : Transaction) (l : list Transaction) :
  Permutation (insert_desc t l) (t :: l).
Proof.
  induction l as [|x r IH]; simpl; [apply Permutation_refl|].
  destruct (Z.leb (timestamp x) (timestamp t)); [apply Permutation_refl|].
  apply perm_trans with (x :: t :: r); [apply perm_skip, IH | apply perm_swap].
Qed.

Lemma order_by_perm (l : list Transaction) :
  Permutation (order_by_timestamp_desc l) l.
Proof.
  induction l as [|x r IH]; simpl; [apply perm_nil|].
  apply perm_trans with (x :: order_by_timestamp_desc r);
    [apply insert_desc_perm | apply perm_skip, IH].
Qed.

Lemma insert_desc_sorted (t : Transaction) (l : list Transaction) :
  StronglySorted newer_or_same l -> StronglySorted newer_or_same (insert_desc t l).
Proof.
  induction 1 as [|x r Hr IH Hx]; simpl.
  - constructor; constructor.
  - destruct (Z.leb_spec (timestamp x) (timestamp t)) as [Hle|Hgt].
    + constructor; [constructor; assumption|].
      constructor; [exact Hle|].
      eapply Forall_impl; [|exact Hx].
      unfold newer_or_same. intros y Hy. lia.
    + constructor; [exact IH|].
      apply (Permutation_Forall (Permutation_sym (insert_desc_perm t r))).
      constructor; [unfold newer_or_same; lia | exact Hx].
Qed.

Lemma order_by_sorted (l : list Transaction) :
  StronglySorted newer_or_same (order_by_timestamp_desc l).
Proof.
  induction l as [|x r IH]; simpl; [constructor | apply insert_desc_sorted, IH].
Qed.

Lemma transactions_appended (ts : list Transaction) (st : Store) :
  transactions (fold_left session_add ts st) = (transactions st ++ ts)%list.
Proof.
  revert st. induction ts as [|t ts IH]; intros st; simpl.
  - symmetry. apply app_nil_r.
  - rewrite IH. simpl. rewrite <- app_assoc. reflexivity.
Qed.

Lemma user_transactions_perm (st : Store) (uid : Z) :
  Permutation (user_transactions st uid) (filter (involves uid) (transactions st)).
Proof. apply order_by_perm. Qed.

Lemma history_length_add (st : Store) (uid : Z) (t : Transaction) :
  List.length (user_transactions (session_add st t) uid)
  = (List.length (user_transactions st uid) + (if involves uid t then 1 else 0))%nat.
Proof.
  rewrite (Permutation_length (user_transactions_perm (session_add st t) uid)).
  rewrite (Permutation_length (user_transactions_perm st uid)). simpl.
  rewrite filter_app, length_app. simpl.
  destruct (involves uid t); reflexivity.
Qed.

(** C8. The history of an account is exactly the records that name it as
    sender or as receiver (each once, a null sender matching nobody), newest
    first; it has as many entries as there are such records, so each appended
    record that involves the account adds exactly one, and after any sequence
    of appends to an empty ledger it holds exactly those of them that involve
    the account.  The admin route renders this list. *)
Theorem history_complete_newest_first :
  forall (st : Store) (uid : Z),
    Permutation (user_transactions st uid)
                (filter (involves uid) (transactions st))
    /\ (forall t, In t (user_transactions st uid) <->
                  In t (transactions st)
                  /\ (sender_id t = Some uid \/ receiver_id t = Some uid))
    /\ StronglySorted newer_or_same (user_transactions st uid)
    /\ (forall t,
           List.length (user_transactions (session_add st t) uid)
           = (List.length (user_transactions st uid)
              + (if involves uid t then 1 else 0))%nat)
    /\ (forall ts,
           List.length (user_transactions
                     (fold_left session_add ts (mkStore (users st) [])) uid)
           = List.length (filter (involves uid) ts))
    /\ (forall db admin_uid admin user,
           session db = st ->
           query_get st admin_uid = Some admin ->
           is_admin admin = true ->
           query_get st uid = Some user ->
           admin_user_transactions db admin_uid uid
           = (Return (RenderTransactions user (user_transactions st uid)), db)).
Proof.
  intros st uid.
  pose proof (fun s => user_transactions_perm s uid) as Hperm.
  split; [apply Hperm|]. split; [|split; [|split; [|split]]].
  - intros t. split.
    + intros H. apply (Permutation_in _ (Hperm st)) in H.
      apply filter_In in H. destruct H as [Hin Hinv].
      split; [exact Hin | apply involves_iff, Hinv].
    + intros [Hin Hinv]. apply (Permutation_in _ (Permutation_sym (Hperm st))).
      apply filter_In. split; [exact Hin | apply involves_iff, Hinv].
  - apply order_by_sorted.
  - intros t. apply history_length_add.
  - intros ts. rewrite (Permutation_length (Hperm _)).
    rewrite transactions_appended. reflexivity.
  - intros db admin_uid admin user Hst Hadm Hia Hu. subst st.
    unfold admin_user_transactions. rewrite Hadm, Hia, Hu. simpl.
    rewrite (query_get_id _ _ _ Hu). reflexivity.
Qed.

(** The history of alice in a ledger of four records: the three that name
    her, newest first; the deposit has a null sender. *)
Example history_of_alice :
  user_transactions Bank.store1 1 = [Bank.t_out; Bank.t_deposit; Bank.t_in].
Proof. reflexivity. Qed.

(** *** Counting operations (over the spec-modelled model layer) *)

Lemma serve_clean (e : env) (r : request) (db : Db) :
  clean db -> clean (snd (serve e r db)).
Proof.
  intros Hclean. destruct r as [uid form|uid form]; simpl.
  - destruct (succeeded (fst (handle (execute_transfer
               (Core.transfer_money (append_fails e) (now e)) db uid form)))) eqn:Hs.
    + destruct (core_execute_transfer_success _ _ _ _ _ Hclean Hs)
        as (s & rc & _ & _ & Hrun).
      rewrite Hrun. reflexivity.
    + rewrite (core_execute_transfer_failure _ _ _ _ _ Hclean Hs). exact Hclean.
  - destruct (succeeded (fst (handle (admin_deposit
               (Core.deposit (append_fails e) (now e)) db uid form)))) eqn:Hs.
    + destruct (core_admin_deposit_success _ _ _ _ _ Hclean Hs)
        as (u & c & _ & _ & Hrun).
      rewrite Hrun. reflexivity.
    + rewrite (core_admin_deposit_failure _ _ _ _ _ Hclean Hs). exact Hclean.
Qed.

Lemma involves_both (a s r : Z) (amt : option float) (k d : string) (t : Z) :
  involves a (mkTransaction (Some s) (Some r) amt k d t)
  = existsb (Z.eqb a) [s; r].
Proof.
  unfold involves, sql_eq. simpl. rewrite (Z.eqb_sym a s), (Z.eqb_sym a r).
  destruct (Z.eqb s a), (Z.eqb r a); reflexivity.
Qed.

Lemma involves_receiver (a r : Z) (amt : option float) (k d : string) (t : Z) :
  involves a (mkTransaction None (Some r) amt k d t) = existsb (Z.eqb a) [r].
Proof.
  unfold involves, sql_eq. simpl. rewrite (Z.eqb_sym a r).
  destruct (Z.eqb r a); reflexivity.
Qed.

(** One served request adds one record to the history of each of its
    parties when it succeeds, and none otherwise. *)
Lemma serve_history_step (a : Z) (e : env) (r : request) (db : Db) :
  clean db ->
  List.length (user_transactions (persisted (snd (serve e r db))) a)
  = (List.length (user_transactions (persisted db) a)
     + (if operation_on a e r db then 1 else 0))%nat.
Proof.
  intros Hclean. unfold operation_on.
  destruct r as [uid form|uid form]; simpl.
  - destruct (succeeded (fst (handle (execute_transfer
               (Core.transfer_money (append_fails e) (now e)) db uid form)))) eqn:Hs.
    + destruct (core_execute_transfer_success _ _ _ _ _ Hclean Hs)
        as (s & rc & Hsender & Hrc & Hrun).
      rewrite Hrun, Hrc. unfold transferred. simpl persisted.
      rewrite history_length_add, involves_both.
      rewrite (query_get_id _ _ _ Hsender). reflexivity.
    + rewrite (core_execute_transfer_failure _ _ _ _ _ Hclean Hs).
      simpl. apply plus_n_O.
  - destruct (succeeded (fst (handle (admin_deposit
               (Core.deposit (append_fails e) (now e)) db uid form)))) eqn:Hs.
    + destruct (core_admin_deposit_success _ _ _ _ _ Hclean Hs)
        as (u & c & Hu & _ & Hrun).
      rewrite Hrun, Hu. unfold deposited. simpl persisted.
      rewrite history_length_add, involves_receiver. reflexivity.
    + rewrite (core_admin_deposit_failure _ _ _ _ _ Hclean Hs).
      simpl. apply plus_n_O.
Qed.

(** After any sequence of requests, the history of an account has grown by
    exactly the number of performed operations that involved it. *)
Lemma history_counts_operations (a : Z) (rs : list (env * request)) :
  forall db : Db,
    clean db ->
    List.length (user_transactions (persisted (run rs db)) a)
    = (List.length (user_transactions (persisted db) a) + operations_on a rs db)%nat.
Proof.
  induction rs as [|[e r] rs IH]; intros db Hclean; simpl.
  - apply plus_n_O.
  - rewrite (IH _ (serve_clean e r db Hclean)).
    rewrite (serve_history_step a e r db Hclean). apply eq_sym, Nat.add_assoc.
Qed.

(** Four requests at the small bank: a transfer to bob, an overdraft that is
    refused, a deposit to alice whose record cannot be appended, and a deposit
    to alice that goes through.  Two operations involved alice, and her
    history has two entries. *)
Example alice_after_four_requests :
  operations_on 1 Bank.four_requests Bank.db0 = 2%nat
  /\ List.length (user_transactions (persisted (run Bank.four_requests Bank.db0)) 1)
     = 2%nat
  /\ option_map balance (query_get (persisted (run Bank.four_requests Bank.db0)) 1)
     = Some 75%float.
Proof. repeat split. Qed.

(** ** Amounts are binary64 *)

(** C9, as stated, fails.  The amount /execute_transfer hands to the core for
    a submitted 0.10 is the binary64 value 7205759403792794 / 2^56, which is
    not one tenth; adding the amounts handed over for 0.10 and 0.20 does not
    give the one for 0.30; and after alice sends bob 0.10 and then 0.20, the
    balance committed for bob, who held 0, is not the float of 0.30. *)
Lemma amounts_are_binary_floats :
  Prim2SF (py_float Bank.d0_10) = S754_finite false 7205759403792794 (-56)
  /\ Z.eqb (10 * 7205759403792794) (2 ^ 56) = false
  /\ (forall tm,
         execute_transfer tm Bank.db0 1 (Bank.confirm_to "bob" Bank.d0_10)
         = match tm Bank.store0 Bank.alice Bank.bob (py_float Bank.d0_10) with
           | (Return true, st) =>
             (Return (Flash (Transferred (py_float Bank.d0_10) "bob") "account"),
              mkDb st st)
           | (Return false, st) =>
             (Return (Flash TransferFailed "transfer"), mkDb Bank.store0 st)
           | (Raise e, st) => (Raise e, mkDb Bank.store0 st)
           end)
  /\ PrimFloat.eqb (PrimFloat.add (py_float Bank.d0_10) (py_float Bank.d0_20))
                   (py_float Bank.d0_30) = false
  /\ option_map balance
       (query_get
          (persisted
             (snd (handle (execute_transfer (Core.transfer_money false 2)
                      (snd (handle (execute_transfer (Core.transfer_money false 1)
                                      Bank.db0 1 (Bank.confirm_to "bob" Bank.d0_10))))
                      1 (Bank.confirm_to "bob" Bank.d0_20)))))
          2)
     = Some (PrimFloat.add (py_float Bank.d0_10) (py_float Bank.d0_20)).
Proof.
  split; [vm_compute; reflexivity|]. split; [reflexivity|].
  split; [|split; vm_compute; reflexivity].
  intros tm. unfold execute_transfer. simpl.
  destruct (tm Bank.store0 Bank.alice Bank.bob (py_float Bank.d0_10))
    as [[[|]|e] st]; reflexivity.
Qed.

(** C9, amended.  Every amount /execute_transfer processes is converted with
    [float(...)] before the model layer sees it: once the guards pass, the
    route is the call of [transfer_money] on that float, and the success
    message carries it.  The float is the submitted decimal rounded once to
    binary64, to nearest and ties to even, with its sign: zero for a zero
    numeral, and otherwise the correctly rounded quotient of the numeral's
    digits by its power of ten. *)
Theorem execute_transfer_hands_over_a_float :
  forall (tm : Store -> User -> User -> float -> result bool * Store)
         (db : Db) (uid : Z) (sender recipient : User) (form : ConfirmTransferForm),
    query_get (session db) uid = Some sender ->
    eligible sender = true ->
    cf_validate_on_submit form = true ->
    find_recipient (session db) (cf_transfer_type form)
      (cf_recipient_username form) (cf_recipient_account form) = Some recipient ->
    eligible recipient = true ->
    execute_transfer tm db uid form
    = match tm (session db) sender recipient (py_float (cf_amount form)) with
      | (Return true, st) =>
        (Return (Flash (Transferred (py_float (cf_amount form)) (username recipient))
                       "account"),
         commit (mkDb (persisted db) st))
      | (Return false, st) =>
        (Return (Flash TransferFailed "transfer"), mkDb (persisted db) st)
      | (Raise e, st) => (Raise e, mkDb (persisted db) st)
      end
    /\ (unscaled (cf_amount form) = 0 ->
        Prim2SF (py_float (cf_amount form)) = S754_zero false)
    /\ (unscaled (cf_amount form) <> 0 ->
        sign_bit (Prim2SF (py_float (cf_amount form)))
        = Some (unscaled (cf_amount form) <? 0)
        /\ correctly_rounded (Z.abs (unscaled (cf_amount form)))
                             (10 ^ Z.of_nat (places (cf_amount form)))
                             (Prim2SF (py_float (cf_amount form)))).
Proof.
  intros tm db uid sender recipient form Hcu Hel Hv Hr Helr.
  split; [|split].
  - unfold execute_transfer.
    rewrite Hcu, (eligible_passes_guard _ Hel), Hv, Hr, (eligible_passes_guard _ Helr).
    reflexivity.
  - intros Hz. unfold py_float.
    rewrite (Prim2SF_SF2Prim _ (py_float_sf_valid (cf_amount form))).
    unfold py_float_sf. rewrite Hz. reflexivity.
  - intros Hnz. unfold py_float.
    rewrite (Prim2SF_SF2Prim _ (py_float_sf_valid (cf_amount form))).
    unfold py_float_sf.
    destruct (Z.eqb_spec (unscaled (cf_amount form)) 0) as [H0|_]; [contradiction|].
    apply nearest_binary64_correct; [lia|]. apply Z.pow_pos_nonneg; lia.
Qed.

(** C9 amended, at the small bank: for a submitted 0.10 the model layer is
    called on the float nearest to it, 7205759403792794 / 2^56, no further
    from one tenth than its two neighbours. *)
Lemma execute_transfer_hands_over_a_float_witness :
  execute_transfer (Core.transfer_money false 1) Bank.db0 1
    (Bank.confirm_to "bob" Bank.d0_10)
  = match Core.transfer_money false 1 Bank.store0 Bank.alice Bank.bob
            (py_float Bank.d0_10) with
    | (Return true, st) =>
      (Return (Flash (Transferred (py_float Bank.d0_10) "bob") "account"),
       commit (mkDb Bank.store0 st))
    | (Return false, st) =>
      (Return (Flash TransferFailed "transfer"), mkDb Bank.store0 st)
    | (Raise e, st) => (Raise e, mkDb Bank.store0 st)
    end
  /\ sign_bit (Prim2SF (py_float Bank.d0_10)) = Some false
  /\ distance 10 100 7205759403792794 (-56) <= distance 10 100 7205759403792793 (-56)
  /\ distance 10 100 7205759403792794 (-56) <= distance 10 100 7205759403792795 (-56).
Proof.
  destruct (execute_transfer_hands_over_a_float (Core.transfer_money false 1)
              Bank.db0 1 Bank.alice Bank.bob (Bank.confirm_to "bob" Bank.d0_10)
              eq_refl eq_refl eq_refl eq_refl eq_refl)
    as (Hcall & _ & Hround).
  destruct (Hround ltac:(discriminate)) as (Hsign & Hnear).
  change (correctly_rounded 10 100 (Prim2SF (py_float Bank.d0_10))) in Hnear.
  replace (Prim2SF (py_float Bank.d0_10))
    with (S754_finite false 7205759403792794 (-56)) in Hnear
    by (vm_compute; reflexivity).
  cbn [correctly_rounded] in Hnear.
  destruct Hnear as (_ & _ & Hmin & _).
  split; [exact Hcall|]. split; [exact Hsign|].
  split; apply Hmin; lia.
Defined.

(** ** Promotion *)

(** C10. When a manager toggles a user who is not a manager: a user who was
    not an admin becomes one and the status is set to active whatever it was,
    so the account is eligible from then on; a user who was an admin loses the
    flag and keeps the status.  Either change is committed. *)
Theorem promotion_activates :
  forall (db : Db) (uid user_id : Z) (manager user : User),
    query_get (session db) uid = Some manager ->
    is_manager manager = true ->
    query_get (session db) user_id = Some user ->
    is_manager user = false ->
    clean (snd (toggle_admin db uid user_id))
    /\ (is_admin user = false ->
        fst (toggle_admin db uid user_id)
        = Return (Flash (Promoted (username user)) "user_list")
        /\ query_get (persisted (snd (toggle_admin db uid user_id))) user_id
           = Some (set_status (set_is_admin user true) "active")
        /\ eligible (set_status (set_is_admin user true) "active") = true)
    /\ (is_admin user = true ->
        fst (toggle_admin db uid user_id)
        = Return (Flash (Demoted (username user)) "admin_list")
        /\ query_get (persisted (snd (toggle_admin db uid user_id))) user_id
           = Some (set_is_admin user false)
        /\ status (set_is_admin user false) = status user).
Proof.
  intros db uid user_id manager user Hm Him Hu Hum.
  pose proof (query_get_id _ _ _ Hu) as Hid.
  unfold toggle_admin. rewrite Hm, Him, Hu, Hum. simpl.
  split; [destruct (is_admin user); reflexivity|].
  split; intros Ha; rewrite Ha; simpl.
  - split; [reflexivity|]. split; [|reflexivity].
    rewrite !query_get_update by reflexivity.
    rewrite Hid, Hu. simpl. rewrite Hid, Z.eqb_refl. simpl.
    rewrite Hid, Z.eqb_refl. rewrite Ha. reflexivity.
  - split; [reflexivity|]. split; [|reflexivity].
    rewrite query_get_update by reflexivity.
    rewrite Hid, Hu. simpl. rewrite Hid, Z.eqb_refl. rewrite Ha. reflexivity.
Qed.

(** C10, at the small bank: mallory (a manager) promotes dave, who was
    pending, and demotes erin, who stays pending. *)
Lemma promotion_activates_witness :
  query_get (persisted (snd (toggle_admin Bank.db0 6 4))) 4
  = Some (mkUser 4 "dave" "1000000004" 0 "active" true false)
  /\ query_get (persisted (snd (toggle_admin Bank.db0 6 5))) 5
     = Some (mkUser 5 "erin" "1000000005" 0 "pending" false false).
Proof.
  destruct (promotion_activates Bank.db0 6 4 Bank.mallory Bank.dave
              eq_refl eq_refl eq_refl eq_refl) as (_ & Hp & _).
  destruct (promotion_activates Bank.db0 6 5 Bank.mallory Bank.erin
              eq_refl eq_refl eq_refl eq_refl) as (_ & _ & Hd).
  split.
  - apply (Hp eq_refl).
  - apply (Hd eq_refl).
Defined.

(** * Further properties of routes.py *)

(** ** Password strength *)

Lemma re_search_In (class : N -> bool) (s : pystr) :
  re_search class s = true -> exists c, In c s /\ class c = true.
Proof. unfold re_search. intros H. apply existsb_exists in H. exact H. Qed.

Lemma special_not_alphanumeric (c : N) :
  is_special c = true ->
  is_upper c = false /\ is_lower c = false /\ is_digit c = false.
Proof.
  unfold is_special. intros H. apply existsb_exists in H.
  destruct H as (x & Hin & Hx). apply N.eqb_eq in Hx. subst x.
  simpl in Hin.
  repeat (destruct Hin as [Hin|Hin]; [subst c; repeat split; reflexivity|]).
  destruct Hin.
Qed.

Lemma in_range_disjoint (lo hi lo' hi' c : N) :
  (hi < lo')%N -> in_range lo hi c = true -> in_range lo' hi' c = false.
Proof.
  unfold in_range. intros Hlt H. apply andb_true_iff in H. destruct H as [_ H].
  apply N.leb_le in H. apply andb_false_iff. left. apply N.leb_gt. lia.
Qed.

(** X1. Every accepted password has at least eight characters, and among them
    an upper-case letter, a lower-case letter, a digit and a listed
    punctuation character, which are four different characters. *)
Theorem strong_password_shape :
  forall password : pystr,
    is_strong_password password = true ->
    (8 <= List.length password)%nat
    /\ exists u l d s,
        In u password /\ is_upper u = true
        /\ In l password /\ is_lower l = true
        /\ In d password /\ is_digit d = true
        /\ In s password /\ is_special s = true
        /\ NoDup [u; l; d; s].
Proof.
  intros p. unfold is_strong_password.
  destruct (Nat.ltb_spec (List.length p) 8) as [|Hlen]; [discriminate|].
  destruct (re_search is_upper p) eqn:Hu; [|discriminate].
  destruct (re_search is_lower p) eqn:Hl; [|discriminate].
  destruct (re_search is_digit p) eqn:Hd; [|discriminate].
  destruct (re_search is_special p) eqn:Hs; [|discriminate].
  intros _. split; [exact Hlen|].
  apply re_search_In in Hu, Hl, Hd, Hs.
  destruct Hu as (u & Hiu & Hu), Hl as (l & Hil & Hl),
           Hd as (d & Hid & Hd), Hs as (s & His & Hs).
  exists u, l, d, s. repeat (split; [assumption|]).
  destruct (special_not_alphanumeric s Hs) as (Hsu & Hsl & Hsd).
  assert (Hul : is_lower u = false)
    by (apply (in_range_disjoint 65 90 97 122); [reflexivity | exact Hu]).
  assert (Hdu : is_upper d = false)
    by (apply (in_range_disjoint 48 57 65 90); [reflexivity | exact Hd]).
  assert (Hdl : is_lower d = false)
    by (apply (in_range_disjoint 48 57 97 122); [reflexivity | exact Hd]).
  repeat constructor; simpl; intuition (subst; congruence).
Qed.

(** X1, on a concrete input. *)
Lemma strong_password_shape_witness :
  (8 <= List.length (codepoints "Passw0rd!"))%nat
  /\ exists u l d s,
      In u (codepoints "Passw0rd!") /\ is_upper u = true
      /\ In l (codepoints "Passw0rd!") /\ is_lower l = true
      /\ In d (codepoints "Passw0rd!") /\ is_digit d = true
      /\ In s (codepoints "Passw0rd!") /\ is_special s = true
      /\ NoDup [u; l; d; s].
Proof. apply (strong_password_shape (codepoints "Passw0rd!")). reflexivity. Defined.

Lemma existsb_perm {A : Type} (f : A -> bool) (l l' : list A) :
  Permutation l l' -> existsb f l = existsb f l'.
Proof.
  induction 1 as [|x l l' _ IH|x y l|l l' l'' _ IH1 _ IH2]; simpl.
  - reflexivity.
  - rewrite IH. reflexivity.
  - destruct (f x), (f y); reflexivity.
  - rewrite IH1. exact IH2.
Qed.

Lemma existsb_inserted {A : Type} (f : A -> bool) (a p b : list A) :
  existsb f p = true -> existsb f (a ++ p ++ b) = true.
Proof.
  intros H. rewrite !existsb_app, H. apply orb_true_iff. right. reflexivity.
Qed.

(** X2. The verdict depends on the characters of the password and not on their
    order, and a password stays accepted when characters are added before
    and after it. *)
Theorem strong_password_order_and_growth :
  forall password : pystr,
    (forall q, Permutation password q ->
               is_strong_password q = is_strong_password password)
    /\ (forall a b : pystr,
           is_strong_password password = true ->
           is_strong_password (a ++ password ++ b)%list = true).
Proof.
  intros p. split.
  - intros q Hperm. unfold is_strong_password, re_search.
    rewrite <- (Permutation_length Hperm).
    rewrite <- !(existsb_perm _ _ _ Hperm). reflexivity.
  - intros a b. unfold is_strong_password, re_search.
    destruct (Nat.ltb_spec (List.length p) 8) as [|Hlen]; [discriminate|].
    destruct (existsb is_upper p) eqn:Hu; [|discriminate].
    destruct (existsb is_lower p) eqn:Hl; [|discriminate].
    destruct (existsb is_digit p) eqn:Hd; [|discriminate].
    destruct (existsb is_special p) eqn:Hs; [|discriminate].
    intros _. rewrite !existsb_inserted by assumption.
    rewrite !length_app.
    destruct (Nat.ltb_spec (List.length a + (List.length p + List.length b)) 8);
      [lia | reflexivity].
Qed.

(** X3. Punctuation outside the listed twenty does not count: a password made of
    letters, digits, spaces and the characters [_ - + = / \ ; ' [ ] ~] is
    rejected whatever its length. *)
Theorem unlisted_punctuation_is_rejected :
  forall password : pystr,
    forallb (fun c => is_upper c || is_lower c || is_digit c
                      || existsb (N.eqb c) (codepoints " _-+=/\;'[]~"))
            password = true ->
    is_strong_password password = false.
Proof.
  intros p Hall. unfold is_strong_password.
  assert (Hs : re_search is_special p = false).
  { unfold re_search. apply not_true_is_false. intros H.
    apply existsb_exists in H. destruct H as (c & Hin & Hc).
    rewrite forallb_forall in Hall. specialize (Hall c Hin).
    destruct (special_not_alphanumeric c Hc) as (Hu & Hl & Hd).
    rewrite Hu, Hl, Hd in Hall. cbn [orb] in Hall.
    apply existsb_exists in Hall. destruct Hall as (x & Hx & Hcx).
    apply N.eqb_eq in Hcx. subst x.
    cbv [codepoints list_ascii_of_string map] in Hx. simpl in Hx.
    repeat (destruct Hx as [Hx|Hx]; [subst c; discriminate Hc|]).
    destruct Hx. }
  rewrite Hs. simpl.
  repeat match goal with |- (if ?b then _ else _) = _ => destruct b end;
    reflexivity.
Qed.

(** X3, on a concrete input. *)
Lemma unlisted_punctuation_is_rejected_witness :
  is_strong_password (codepoints "Correct_Horse-Battery=Staple42") = false.
Proof.
  apply (unlisted_punctuation_is_rejected
           (codepoints "Correct_Horse-Battery=Staple42")).
  reflexivity.
Defined.

(** ** Masking *)

Lemma mask_sensitive_long (v : pystr) :
  (4 < List.length v)%nat ->
  mask_sensitive (Some v)
  = (firstn 2 v ++ repeat 42%N (List.length v - 4)
       ++ skipn (List.length v - 2) v)%list.
Proof.
  intros H. unfold mask_sensitive.
  destruct (Nat.eqb_spec (List.length v) 0) as [|_]; [lia|].
  destruct (Nat.ltb_spec 4 (List.length v)); [reflexivity | lia].
Qed.

Lemma mask_sensitive_short (v : pystr) :
  (List.length v <= 4)%nat -> mask_sensitive (Some v) = codepoints "****".
Proof.
  intros H. unfold mask_sensitive.
  destruct (Nat.ltb_spec 4 (List.length v)); [lia|].
  rewrite andb_false_r. reflexivity.
Qed.

Lemma mask_sensitive_long_length (v : pystr) :
  (4 < List.length v)%nat ->
  List.length (mask_sensitive (Some v)) = List.length v.
Proof.
  intros H. rewrite (mask_sensitive_long v H).
  rewrite !length_app, repeat_length, length_firstn, length_skipn. lia.
Qed.

(** X4. The mask is as long as the value, and never shorter than four; a value
    of at most four characters (or none at all) is masked entirely; a longer
    one shows its first two and last two characters; and masking a mask
    changes nothing. *)
Theorem mask_sensitive_shape :
  forall value : option pystr,
    List.length (mask_sensitive value)
    = Nat.max 4 (match value with Some v => List.length v | None => 0%nat end)
    /\ (forall v : pystr, value = Some v -> (List.length v <= 4)%nat ->
                  mask_sensitive value = mask_sensitive None)
    /\ (forall v : pystr, value = Some v -> (4 < List.length v)%nat ->
                  firstn 2 (mask_sensitive value) = firstn 2 v
                  /\ skipn (List.length v - 2) (mask_sensitive value)
                     = skipn (List.length v - 2) v)
    /\ mask_sensitive (Some (mask_sensitive value)) = mask_sensitive value.
Proof.
  assert (Hends : forall v : pystr, (4 < List.length v)%nat ->
            firstn 2 (mask_sensitive (Some v)) = firstn 2 v
            /\ skipn (List.length v - 2) (mask_sensitive (Some v))
               = skipn (List.length v - 2) v).
  { intros v Hv. rewrite (mask_sensitive_long v Hv). split.
    - rewrite firstn_app, length_firstn.
      replace (2 - Nat.min 2 (List.length v))%nat with 0%nat by lia.
      rewrite firstn_firstn. simpl. apply app_nil_r.
    - rewrite app_assoc, skipn_app.
      rewrite length_app, repeat_length, length_firstn.
      replace (List.length v - 2
               - (Nat.min 2 (List.length v) + (List.length v - 4)))%nat
        with 0%nat by lia.
      rewrite skipn_all2
        by (rewrite length_app, repeat_length, length_firstn; lia).
      reflexivity. }
  intros [v|].
  - destruct (Nat.le_gt_cases (List.length v) 4) as [Hs|Hl].
    + rewrite (mask_sensitive_short v Hs).
      split; [change (List.length (codepoints "****")) with 4%nat; lia|].
      split; [intros; reflexivity|].
      split; [intros w Hw; inversion Hw; subst; lia | reflexivity].
    + split; [rewrite (mask_sensitive_long_length v Hl); lia|].
      split; [intros w Hw; inversion Hw; subst; lia|].
      split; [intros w Hw _; inversion Hw; subst; apply (Hends w Hl)|].
      pose proof (mask_sensitive_long_length v Hl) as Hlen.
      destruct (Hends v Hl) as [Hf Hk].
      rewrite (mask_sensitive_long (mask_sensitive (Some v))) by lia.
      rewrite Hlen, Hf, Hk. symmetry. apply mask_sensitive_long, Hl.
  - split; [reflexivity|].
    split; [intros; reflexivity|]. split; [discriminate | reflexivity].
Qed.

(** X5. The mask of a value longer than four characters depends on nothing but
    its length, its first two and its last two characters. *)
Theorem mask_sensitive_hides_the_middle :
  forall v w : pystr,
    List.length v = List.length w ->
    firstn 2 v = firstn 2 w ->
    skipn (List.length v - 2) v = skipn (List.length w - 2) w ->
    mask_sensitive (Some v) = mask_sensitive (Some w).
Proof.
  intros v w Hlen Hf Hk. unfold mask_sensitive. rewrite <- Hlen, Hf.
  rewrite Hlen in Hk at 1. rewrite <- Hlen in Hk. rewrite Hk. reflexivity.
Qed.

(** X5, on a concrete input. *)
Lemma mask_sensitive_hides_the_middle_witness :
  mask_sensitive (Some (codepoints "hunter2-secret"))
  = mask_sensitive (Some (codepoints "hu0123456789et")).
Proof.
  apply (mask_sensitive_hides_the_middle (codepoints "hunter2-secret")
           (codepoints "hu0123456789et")); reflexivity.
Defined.

(** ** The HTTPS redirect *)

Lemma replace_once_absent (old new s : string) :
  occurs old s = false -> replace_once old new s = s.
Proof.
  induction s as [|c s IH]; simpl; intros H.
  - apply orb_false_iff in H. destruct H as [H _]. rewrite H. reflexivity.
  - apply orb_false_iff in H. destruct H as [H1 H2].
    rewrite H1, (IH H2). reflexivity.
Qed.

Lemma prefix_app (old rest : string) : String.prefix old (old ++ rest) = true.
Proof.
  induction old as [|c old IH]; simpl.
  - destruct rest; reflexivity.
  - destruct (ascii_dec c c) as [_|Hne]; [exact IH | now elim Hne].
Qed.

Lemma drop_app (old rest : string) : drop (String.length old) (old ++ rest) = rest.
Proof.
  induction old as [|c old IH]; simpl; [destruct rest; reflexivity | exact IH].
Qed.

Lemma replace_once_prefix (old new rest : string) :
  replace_once old new (old ++ rest) = new ++ rest.
Proof.
  assert (Hunfold : forall s, replace_once old new s
                    = if String.prefix old s
                      then new ++ drop (String.length old) s
                      else match s with
                           | EmptyString => EmptyString
                           | String c s' => String c (replace_once old new s')
                           end)
    by (intros [|c s]; reflexivity).
  rewrite Hunfold, prefix_app, drop_app. reflexivity.
Qed.

(** X6. Outside debug mode every request whose X-Forwarded-Proto header is not
    exactly 'https' (or is missing) is answered by a permanent redirect and
    its view never runs, whatever the view; all other requests pass.  The
    target of a URL beginning with 'http://' is the same URL under
    'https://'; a URL in which 'http://' does not occur is redirected to
    itself. *)
Theorem enforce_https_redirects :
  forall (debug : bool) (x_forwarded_proto : option string) (url : string),
    (enforce_https debug x_forwarded_proto url = None
     <-> debug = true \/ x_forwarded_proto = Some "https")
    /\ (forall target view db,
           enforce_https debug x_forwarded_proto url = Some target ->
           before_request debug x_forwarded_proto url view db
           = (MovedPermanently target, db))
    /\ (forall rest target,
           url = "http://" ++ rest ->
           enforce_https debug x_forwarded_proto url = Some target ->
           target = "https://" ++ rest)
    /\ (forall target,
           occurs "http://" url = false ->
           enforce_https debug x_forwarded_proto url = Some target ->
           target = url).
Proof.
  intros debug proto url. unfold before_request, enforce_https.
  split; [|split; [|split]].
  - destruct debug; simpl; [split; auto|].
    destruct proto as [p|]; simpl.
    + destruct (String.eqb_spec p "https") as [->|Hne]; simpl.
      * split; auto.
      * split; [discriminate|]. intros [H|H]; [discriminate|].
        inversion H. contradiction.
    + split; [discriminate|]. intros [H|H]; discriminate.
  - intros target view db H. rewrite H. reflexivity.
  - intros rest target -> H.
    destruct (negb debug && _); [|discriminate].
    rewrite replace_once_prefix in H. injection H as <-. reflexivity.
  - intros target Hocc H.
    destruct (negb debug && _); [|discriminate].
    inversion H. apply replace_once_absent, Hocc.
Qed.

(** ** Administration *)

Lemma query_get_update_other (st : Store) (uid j : Z) (f : User -> User) :
  (forall u, id (f u) = id u) ->
  j <> uid ->
  query_get (update_user st uid f) j = query_get st j.
Proof.
  intros Hf Hne. rewrite query_get_update by exact Hf.
  destruct (query_get st j) as [w|] eqn:Hw; [|reflexivity]. simpl.
  rewrite (query_get_id _ _ _ Hw).
  destruct (Z.eqb_spec j uid); [contradiction | reflexivity].
Qed.

Lemma query_get_update_same (st : Store) (uid : Z) (u : User) (f : User -> User) :
  (forall u, id (f u) = id u) ->
  query_get st uid = Some u ->
  query_get (update_user st (id u) f) uid = Some (f u).
Proof.
  intros Hf Hu. rewrite query_get_update by exact Hf. rewrite Hu. simpl.
  rewrite Z.eqb_refl. reflexivity.
Qed.

Lemma find_recipient_update (st : Store) (uid : Z) (f : User -> User)
      (ty rname racct : string) :
  (forall u, username (f u) = username u) ->
  (forall u, account_number (f u) = account_number u) ->
  find_recipient (update_user st uid f) ty rname racct
  = option_map (fun u => if Z.eqb (id u) uid then f u else u)
               (find_recipient st ty rname racct).
Proof.
  intros Hn Ha. unfold find_recipient.
  destruct (String.eqb ty "username").
  - unfold query_by_username, update_user. simpl.
    apply find_map_preserved. intros x.
    destruct (Z.eqb (id x) uid); [rewrite Hn|]; reflexivity.
  - apply query_by_account_number_update, Ha.
Qed.

(** X7. An admin who may manage a user activates the account: the change is
    committed, the account is eligible from then on whatever its status was,
    and no other account and no record is touched. *)
Theorem activate_user_opens_the_account :
  forall (can_manage_user : User -> User -> bool)
         (db : Db) (uid user_id : Z) (admin user : User),
    query_get (session db) uid = Some admin ->
    is_admin admin = true ->
    query_get (session db) user_id = Some user ->
    can_manage_user admin user = true ->
    fst (activate_user can_manage_user db uid user_id)
    = FlashTo ("Account " ++ username user ++ " has been activated.")
              "admin_dashboard"
    /\ clean (snd (activate_user can_manage_user db uid user_id))
    /\ query_get (persisted (snd (activate_user can_manage_user db uid user_id)))
                 user_id
       = Some (set_status user "active")
    /\ eligible (set_status user "active") = true
    /\ (forall j, j <> user_id ->
          query_get (persisted (snd (activate_user can_manage_user db uid user_id))) j
          = query_get (session db) j)
    /\ transactions (persisted (snd (activate_user can_manage_user db uid user_id)))
       = transactions (session db).
Proof.
  intros can db uid user_id admin user Ha Hia Hu Hcan.
  pose proof (query_get_id _ _ _ Hu) as Hid.
  unfold activate_user, login_required, admin_required.
  rewrite Ha, Hia, Hu, Hcan. simpl.
  split; [reflexivity|]. split; [reflexivity|].
  split; [apply (query_get_update_same _ _ _ (fun u => set_status u "active"));
          [reflexivity | exact Hu]|].
  split; [reflexivity|]. split; [|reflexivity].
  intros j Hj. apply query_get_update_other; [reflexivity | congruence].
Qed.

(** X8. An admin who may manage a user that is neither admin nor manager
    deactivates the account: from then on the user's own transfers are turned
    away, transfers to the user are refused, and so are deposits to the
    account, whatever the model layer. *)
Theorem deactivate_user_bars_the_account :
  forall (can_manage_user : User -> User -> bool)
         (db : Db) (uid user_id : Z) (admin user : User),
    query_get (session db) uid = Some admin ->
    is_admin admin = true ->
    query_get (session db) user_id = Some user ->
    can_manage_user admin user = true ->
    is_admin user = false ->
    is_manager user = false ->
    (forall tm form,
        execute_transfer tm (snd (deactivate_user can_manage_user db uid user_id))
                         user_id form
        = (Return (Flash AwaitingApproval "index"),
           snd (deactivate_user can_manage_user db uid user_id)))
    /\
    (forall form,
        transfer (snd (deactivate_user can_manage_user db uid user_id)) user_id form
        = (Return (Flash AwaitingApproval "index"),
           snd (deactivate_user can_manage_user db uid user_id)))
    /\
    (forall tm sender_uid sender form,
        sender_uid <> user_id ->
        query_get (session db) sender_uid = Some sender ->
        eligible sender = true ->
        cf_validate_on_submit form = true ->
        find_recipient (session db) (cf_transfer_type form)
          (cf_recipient_username form) (cf_recipient_account form) = Some user ->
        execute_transfer tm (snd (deactivate_user can_manage_user db uid user_id))
                         sender_uid form
        = (Return (Flash RecipientNotActive "transfer"),
           snd (deactivate_user can_manage_user db uid user_id)))
    /\
    (forall dep actor_uid actor form,
        actor_uid <> user_id ->
        query_get (session db) actor_uid = Some actor ->
        is_admin actor = true ->
        df_validate_on_submit form = true ->
        query_by_account_number (session db) (df_account_number form) = Some user ->
        admin_deposit dep (snd (deactivate_user can_manage_user db uid user_id))
                      actor_uid form
        = (Return (Flash CannotDepositInactive "admin_deposit"),
           snd (deactivate_user can_manage_user db uid user_id))).
Proof.
  intros can db uid user_id admin user Ha Hia Hu Hcan Hua Hum.
  pose proof (query_get_id _ _ _ Hu) as Hid.
  assert (Hrun : snd (deactivate_user can db uid user_id)
                 = commit (mkDb (persisted db)
                             (update_user (session db) (id user)
                                (fun u => set_status u "deactivated")))).
  { unfold deactivate_user, login_required, admin_required.
    rewrite Ha, Hia, Hu, Hcan. reflexivity. }
  rewrite Hrun. clear Hrun.
  assert (Hguard : not_active_unprivileged (set_status user "deactivated") = true).
  { unfold not_active_unprivileged. simpl. rewrite Hua, Hum. reflexivity. }
  assert (Hme : query_get (update_user (session db) (id user)
                             (fun u => set_status u "deactivated")) user_id
                = Some (set_status user "deactivated"))
    by (apply (query_get_update_same _ _ _ (fun u => set_status u "deactivated"));
        [reflexivity | exact Hu]).
  split; [|split; [|split]].
  - intros tm form. unfold execute_transfer. simpl session.
    rewrite Hme, Hguard. reflexivity.
  - intros form. unfold transfer. simpl session. rewrite Hme, Hguard. reflexivity.
  - intros tm sender_uid sender form Hne Hs Hel Hv Hr.
    unfold execute_transfer. simpl session.
    rewrite query_get_update_other by (reflexivity || congruence).
    rewrite Hs, (eligible_passes_guard _ Hel), Hv.
    rewrite find_recipient_update by reflexivity.
    rewrite Hr. simpl. rewrite Z.eqb_refl, Hguard. reflexivity.
  - intros dep actor_uid actor form Hne Hact Hadm Hv Ht.
    unfold admin_deposit. simpl session.
    rewrite query_get_update_other by (reflexivity || congruence).
    rewrite Hact, Hadm, Hv. simpl.
    rewrite query_by_account_number_update by reflexivity.
    rewrite Ht. simpl. rewrite Z.eqb_refl, Hguard. reflexivity.
Qed.

(** X9. Deactivation does not bar a privileged account: after an admin or a
    manager has been deactivated, the account is still eligible and its
    transfers are not turned away for its status. *)
Theorem deactivate_user_spares_the_privileged :
  forall (can_manage_user : User -> User -> bool)
         (db : Db) (uid user_id : Z) (admin user : User),
    query_get (session db) uid = Some admin ->
    is_admin admin = true ->
    query_get (session db) user_id = Some user ->
    can_manage_user admin user = true ->
    is_admin user || is_manager user = true ->
    query_get (persisted (snd (deactivate_user can_manage_user db uid user_id)))
              user_id
    = Some (set_status user "deactivated")
    /\ eligible (set_status user "deactivated") = true
    /\ (forall tm form,
           fst (execute_transfer tm
                  (snd (deactivate_user can_manage_user db uid user_id)) user_id form)
           <> Return (Flash AwaitingApproval "index")).
Proof.
  intros can db uid user_id admin user Ha Hia Hu Hcan Hpriv.
  assert (Hrun : snd (deactivate_user can db uid user_id)
                 = commit (mkDb (persisted db)
                             (update_user (session db) (id user)
                                (fun u => set_status u "deactivated")))).
  { unfold deactivate_user, login_required, admin_required.
    rewrite Ha, Hia, Hu, Hcan. reflexivity. }
  rewrite Hrun. clear Hrun.
  assert (Hme : query_get (update_user (session db) (id user)
                             (fun u => set_status u "deactivated")) user_id
                = Some (set_status user "deactivated"))
    by (apply (query_get_update_same _ _ _ (fun u => set_status u "deactivated"));
        [reflexivity | exact Hu]).
  assert (Hel : eligible (set_status user "deactivated") = true).
  { unfold eligible. simpl.
    destruct (is_admin user), (is_manager user); try discriminate; reflexivity. }
  split; [exact Hme|]. split; [exact Hel|].
  intros tm form. unfold execute_transfer. simpl session.
  rewrite Hme, (eligible_passes_guard _ Hel).
  branches.
Qed.

(** X10. Whoever is not an admin is turned away by every admin route with the
    database as it was, whatever the model layer and whoever may manage
    whom (a manager who is not an admin included); an admin cannot change
    the status of a user that [can_manage_user] withholds; and an id that
    names no user is answered with 404 and changes nothing. *)
Theorem admin_routes_turn_others_away :
  forall (can_manage_user : User -> User -> bool)
         (dep : Store -> User -> float -> User -> result bool * Store)
         (db : Db) (uid : Z) (u : User),
    query_get (session db) uid = Some u ->
    (is_admin u = false ->
     (forall form,
         admin_deposit dep db uid form = (Return (Flash NeedAdmin "index"), db))
     /\ (forall j,
            admin_user_transactions db uid j
            = (Return (Flash NeedAdmin "index"), db))
     /\ (forall j,
            activate_user can_manage_user db uid j
            = (FlashTo "You need to be an admin to access this page." "index", db))
     /\ (forall j,
            deactivate_user can_manage_user db uid j
            = (FlashTo "You need to be an admin to access this page." "index", db))
     /\ admin_dashboard db uid
        = (FlashTo "You need to be an admin to access this page." "index", db))
    /\
    (forall j user,
        is_admin u = true ->
        query_get (session db) j = Some user ->
        can_manage_user u user = false ->
        activate_user can_manage_user db uid j
        = (FlashTo "You do not have permission to manage this user."
                   "admin_dashboard", db)
        /\ deactivate_user can_manage_user db uid j
           = (FlashTo "You do not have permission to manage this user."
                      "admin_dashboard", db))
    /\
    (forall j,
        is_admin u = true ->
        query_get (session db) j = None ->
        admin_user_transactions db uid j = (Return NotFound404, db)
        /\ activate_user can_manage_user db uid j = (Abort404, db)
        /\ deactivate_user can_manage_user db uid j = (Abort404, db)).
Proof.
  intros can dep db uid u Hu. split; [|split].
  - intros Hna.
    unfold admin_deposit, admin_user_transactions, activate_user,
      deactivate_user, admin_dashboard, login_required, admin_required.
    rewrite Hu, Hna. repeat split.
  - intros j user Ha Hj Hcan.
    unfold activate_user, deactivate_user, login_required, admin_required.
    rewrite Hu, Ha, Hj, Hcan. split; reflexivity.
  - intros j Ha Hj.
    unfold admin_user_transactions, activate_user, deactivate_user,
      login_required, admin_required.
    rewrite Hu, Ha, Hj. repeat split.
Qed.

(** X11. Whoever is not a manager is turned away by every manager route with the
    database as it was; toggling a manager changes nothing either, and an id
    that names no user is answered with 404. *)
Theorem manager_routes_turn_others_away :
  forall (db : Db) (uid : Z) (u : User),
    query_get (session db) uid = Some u ->
    (is_manager u = false ->
     (forall j, toggle_admin db uid j = (Return (Flash NeedManager "index"), db))
     /\ manager_dashboard db uid
        = (FlashTo "You need to be a manager to access this page." "index", db)
     /\ user_list db uid
        = (FlashTo "You need to be a manager to access this page." "index", db)
     /\ admin_list db uid
        = (FlashTo "You need to be a manager to access this page." "index", db))
    /\
    (forall j target,
        is_manager u = true ->
        query_get (session db) j = Some target ->
        is_manager target = true ->
        toggle_admin db uid j
        = (Return (Flash CannotModifyManager "manager_dashboard"), db))
    /\
    (forall j,
        is_manager u = true ->
        query_get (session db) j = None ->
        toggle_admin db uid j = (Return NotFound404, db)).
Proof.
  intros db uid u Hu. split; [|split].
  - intros Hnm.
    unfold toggle_admin, manager_dashboard, user_list, admin_list,
      login_required, manager_required.
    rewrite Hu, Hnm. repeat split.
  - intros j target Hm Hj Htm. unfold toggle_admin.
    rewrite Hu, Hm, Hj, Htm. reflexivity.
  - intros j Hm Hj. unfold toggle_admin. rewrite Hu, Hm, Hj. reflexivity.
Qed.

Lemma set_is_admin_same (u : User) : set_is_admin u (is_admin u) = u.
Proof. destruct u; reflexivity. Qed.

(** The session a promotion leaves. *)
Lemma toggle_admin_promotes (db : Db) (uid user_id : Z) (manager user : User) :
  query_get (session db) uid = Some manager ->
  is_manager manager = true ->
  query_get (session db) user_id = Some user ->
  is_manager user = false ->
  is_admin user = false ->
  snd (toggle_admin db uid user_id)
  = commit (mkDb (persisted db)
              (update_user
                 (update_user (session db) (id user)
                    (fun u => set_is_admin u (negb (is_admin u))))
                 (id user) (fun u => set_status u "active"))).
Proof.
  intros Hm Him Hu Hum Hua. unfold toggle_admin.
  rewrite Hm, Him, Hu, Hum, Hua. reflexivity.
Qed.

(** X12. The status a promotion sets outlives the promotion: a user who is made
    admin and then demoted again ends as an active, eligible, regular user,
    whatever the status was before. *)
Theorem promotion_then_demotion_leaves_active :
  forall (db : Db) (uid user_id : Z) (manager user : User),
    query_get (session db) uid = Some manager ->
    is_manager manager = true ->
    query_get (session db) user_id = Some user ->
    is_manager user = false ->
    is_admin user = false ->
    query_get
      (persisted (snd (toggle_admin (snd (toggle_admin db uid user_id)) uid user_id)))
      user_id
    = Some (set_status user "active")
    /\ eligible (set_status user "active") = true
    /\ is_admin (set_status user "active") = false.
Proof.
  intros db uid user_id manager user Hm Him Hu Hum Hua.
  pose proof (query_get_id _ _ _ Hu) as Hid.
  pose proof (query_get_id _ _ _ Hm) as Hmid.
  assert (Hne : uid <> user_id).
  { intros ->. rewrite Hm in Hu. inversion Hu. subst. congruence. }
  rewrite (toggle_admin_promotes db uid user_id manager user Hm Him Hu Hum Hua).
  set (st2 := update_user _ (id user) (fun u => set_status u "active")).
  assert (Hm2 : query_get st2 uid = Some manager).
  { unfold st2. rewrite !query_get_update_other by (reflexivity || congruence).
    exact Hm. }
  assert (Hu2 : query_get st2 user_id
                = Some (set_status (set_is_admin user true) "active")).
  { unfold st2. rewrite !query_get_update by reflexivity.
    rewrite Hu. simpl. rewrite !Hid, !Z.eqb_refl. simpl.
    rewrite Hid, Z.eqb_refl, Hua. reflexivity. }
  unfold toggle_admin. simpl session. rewrite Hm2, Him, Hu2. simpl.
  rewrite Hum. simpl.
  split; [|split; [reflexivity | exact Hua]].
  rewrite query_get_update by reflexivity.
  rewrite Hu2. simpl. rewrite Hid, Z.eqb_refl. simpl.
  rewrite <- Hua at 1. f_equal. destruct user; simpl in *; subst; reflexivity.
Qed.

Lemma filter_partition {A : Type} (p q r : A -> bool) (l : list A) :
  (forall x, r x = p x || q x) ->
  (forall x, p x = true -> q x = false) ->
  Permutation (filter p l ++ filter q l) (filter r l).
Proof.
  intros Hr Hpq. induction l as [|x l IH]; simpl; [constructor|].
  rewrite Hr. destruct (p x) eqn:Hp; simpl.
  - rewrite (Hpq x Hp). constructor. exact IH.
  - destruct (q x); simpl; [|exact IH].
    apply Permutation_sym, Permutation_cons_app, Permutation_sym, IH.
Qed.

(** X13. For a manager, the admin list and the user list are the two columns of
    the dashboard; together they hold every account that is not a manager,
    each exactly once, and no manager. *)
Theorem manager_lists_partition :
  forall (db : Db) (uid : Z) (manager : User),
    query_get (session db) uid = Some manager ->
    is_manager manager = true ->
    exists admins regular_users,
      admin_list db uid = (ShowUsers "manager/admin_list.html" admins, db)
      /\ user_list db uid = (ShowUsers "manager/user_list.html" regular_users, db)
      /\ manager_dashboard db uid = (ShowDashboard admins regular_users, db)
      /\ Permutation (admins ++ regular_users)
                     (filter (fun u => negb (is_manager u)) (users (session db)))
      /\ (forall u, In u admins -> ~ In u regular_users).
Proof.
  intros db uid manager Hm Him.
  exists (filter (fun u => is_admin u && negb (is_manager u)) (users (session db))),
         (filter (fun u => negb (is_admin u) && negb (is_manager u))
                 (users (session db))).
  unfold admin_list, user_list, manager_dashboard, login_required, manager_required.
  rewrite Hm, Him. simpl.
  split; [reflexivity|]. split; [reflexivity|].
  split.
  { f_equal. f_equal; apply filter_ext; intros u;
      destruct (is_admin u), (is_manager u); reflexivity. }
  split.
  - apply filter_partition; intros u;
      destruct (is_admin u), (is_manager u); simpl; congruence.
  - intros u Hin Hin'. apply filter_In in Hin, Hin'.
    destruct Hin as [_ H1], Hin' as [_ H2].
    destruct (is_admin u); simpl in *; discriminate.
Qed.

Lemma NoDup_id_injective (l : list User) (a b : User) :
  NoDup (map id l) -> In a l -> In b l -> id a = id b -> a = b.
Proof.
  induction l as [|x l IH]; simpl; intros Hnd Ha Hb Hid; [contradiction|].
  inversion Hnd as [|? ? Hnotin Hnd']; subst.
  destruct Ha as [->|Ha], Hb as [->|Hb].
  - reflexivity.
  - elim Hnotin. rewrite Hid. apply in_map, Hb.
  - elim Hnotin. rewrite <- Hid. apply in_map, Ha.
  - apply IH; assumption.
Qed.

(** X14. Promotion moves an account from the user list to the admin list: with
    unique ids, the promoted account appears among the admins, and the user
    list afterwards is the user list before without that account. *)
Theorem promotion_moves_between_lists :
  forall (db : Db) (uid user_id : Z) (manager user : User),
    query_get (session db) uid = Some manager ->
    is_manager manager = true ->
    query_get (session db) user_id = Some user ->
    is_manager user = false ->
    is_admin user = false ->
    NoDup (map id (users (session db))) ->
    exists before admins_after users_after,
      user_list db uid = (ShowUsers "manager/user_list.html" before, db)
      /\ admin_list (snd (toggle_admin db uid user_id)) uid
         = (ShowUsers "manager/admin_list.html" admins_after,
            snd (toggle_admin db uid user_id))
      /\ user_list (snd (toggle_admin db uid user_id)) uid
         = (ShowUsers "manager/user_list.html" users_after,
            snd (toggle_admin db uid user_id))
      /\ In user before
      /\ In (set_status (set_is_admin user true) "active") admins_after
      /\ (forall v, In v users_after <-> In v before /\ id v <> user_id).
Proof.
  intros db uid user_id manager user Hm Him Hu Hum Hua Hnd.
  pose proof (query_get_id _ _ _ Hu) as Hid.
  assert (Hin : In user (users (session db)))
    by (unfold query_get in Hu; apply find_some in Hu; apply Hu).
  assert (Hne : uid <> user_id).
  { intros ->. rewrite Hm in Hu. inversion Hu. subst. congruence. }
  rewrite (toggle_admin_promotes db uid user_id manager user Hm Him Hu Hum Hua).
  set (st2 := update_user _ (id user) (fun u => set_status u "active")).
  assert (Hm2 : query_get st2 uid = Some manager).
  { unfold st2. rewrite !query_get_update_other by (reflexivity || congruence).
    exact Hm. }
  set (g := fun u : User =>
              if Z.eqb (id u) user_id
              then set_status (set_is_admin u (negb (is_admin u))) "active"
              else u).
  assert (Hus : users st2 = map g (users (session db))).
  { unfold st2, update_user. simpl. rewrite map_map. apply map_ext.
    intros u. unfold g. rewrite Hid.
    destruct (Z.eqb (id u) user_id) eqn:E; simpl; rewrite E; reflexivity. }
  exists (filter (fun u => negb (is_admin u) && negb (is_manager u))
                 (users (session db))),
         (filter (fun u => is_admin u && negb (is_manager u)) (users st2)),
         (filter (fun u => negb (is_admin u) && negb (is_manager u)) (users st2)).
  unfold user_list, admin_list, login_required, manager_required.
  cbn [session commit]. rewrite Hm, Hm2, Him. cbn [negb].
  split; [reflexivity|]. split; [reflexivity|]. split; [reflexivity|].
  split; [apply filter_In; split; [exact Hin | rewrite Hua, Hum; reflexivity]|].
  split.
  - apply filter_In. split; [|simpl; rewrite Hum; reflexivity].
    rewrite Hus. apply in_map_iff. exists user. split; [|exact Hin].
    unfold g. rewrite Hid, Z.eqb_refl, Hua. reflexivity.
  - intros v. rewrite !filter_In, Hus, in_map_iff. split.
    + intros [(w & Hw & Hwin) Hreg].
      destruct (Z.eqb_spec (id w) user_id) as [Hwid|Hwid].
      * assert (w = user)
          by (apply (NoDup_id_injective _ _ _ Hnd Hwin Hin); congruence).
        subst w. unfold g in Hw. rewrite Hid, Z.eqb_refl, Hua in Hw.
        subst v. simpl in Hreg. discriminate.
      * unfold g in Hw. apply Z.eqb_neq in Hwid. rewrite Hwid in Hw. subst w.
        apply Z.eqb_neq in Hwid. repeat split; assumption.
    + intros [[Hvin Hreg] Hvid]. split; [|exact Hreg].
      exists v. split; [|exact Hvin].
      unfold g. apply Z.eqb_neq in Hvid. rewrite Hvid. reflexivity.
Qed.

(** ** Signing in *)

(** X15. Whoever [login] signs in was found by the submitted username, is
    eligible (active, or admin, or manager), and supplied a password that
    matches: the SHA-256 digest for a legacy hash, [check_password] otherwise.
    The page it then redirects to is the index unless [next] is a non-empty
    URL without a network location. *)
Theorem login_admits_only_with_password_and_standing :
  forall (sha256_hexdigest password_hasher : string -> string)
         (check_password : Member -> string -> bool) (netloc : string -> string)
         (members : list Member) (authenticated : bool) (form : LoginForm)
         (next : option string) (u : User) (next_page : option string),
    fst (login sha256_hexdigest password_hasher check_password netloc
               members authenticated form next)
    = LoggedIn u next_page ->
    exists m,
      find (fun x => String.eqb (username (profile x)) (lf_username form)) members
      = Some m
      /\ profile m = u
      /\ eligible u = true
      /\ (if is_legacy_hash (password_hash m)
          then password_hash m = Some (sha256_hexdigest (lf_password form))
          else check_password m (lf_password form) = true)
      /\ (forall n, next_page = Some n ->
                    next = Some n /\ n <> "" /\ netloc n = "").
Proof.
  intros sha hasher check net members auth form next u np.
  unfold login.
  destruct auth; [discriminate|].
  destruct (lf_validate_on_submit form); [|discriminate].
  destruct (find _ members) as [m|]; [|discriminate].
  assert (Hnext : forall n,
             match next with
             | Some n0 => if String.eqb n0 "" || negb (String.eqb (net n0) "")
                          then None else Some n0
             | None => None
             end = Some n -> next = Some n /\ n <> "" /\ net n = "").
  { intros n. destruct next as [n0|]; [|discriminate].
    destruct (String.eqb_spec n0 ""); simpl; [discriminate|].
    destruct (String.eqb_spec (net n0) ""); simpl; [|discriminate].
    intros H. inversion H. subst. repeat split; assumption. }
  destruct (is_legacy_hash (password_hash m)) eqn:Hleg.
  - destruct (password_hash m) as [h|] eqn:Hh; [|discriminate].
    destruct (String.eqb_spec (sha (lf_password form)) h) as [Heq|]; [|discriminate].
    unfold set_password. simpl.
    destruct (not_active_unprivileged (profile m)) eqn:Hg.
    + destruct (String.eqb (status (profile m)) "pending"); discriminate.
    + simpl. intros H. inversion H. subst u np. exists m.
      rewrite Hh, Hleg. rewrite guard_is_not_eligible in Hg.
      apply negb_false_iff in Hg.
      split; [reflexivity|]. split; [reflexivity|]. split; [exact Hg|].
      split; [congruence | exact Hnext].
  - destruct (check m (lf_password form)) eqn:Hc; [|discriminate]. simpl.
    destruct (not_active_unprivileged (profile m)) eqn:Hg.
    + destruct (String.eqb (status (profile m)) "pending"); discriminate.
    + simpl. intros H. inversion H. subst u np. exists m.
      rewrite Hleg. rewrite guard_is_not_eligible in Hg.
      apply negb_false_iff in Hg.
      split; [reflexivity|]. split; [reflexivity|]. split; [exact Hg|].
      split; [exact Hc | exact Hnext].
Qed.

(** X16. The only write [login] ever makes is the upgrade of a legacy hash after
    the matching password: otherwise the table is as it was. *)
Theorem login_writes_only_the_upgrade :
  forall (sha256_hexdigest password_hasher : string -> string)
         (check_password : Member -> string -> bool) (netloc : string -> string)
         (members : list Member) (authenticated : bool) (form : LoginForm)
         (next : option string),
    snd (login sha256_hexdigest password_hasher check_password netloc
               members authenticated form next) = members
    \/ exists m,
        find (fun x => String.eqb (username (profile x)) (lf_username form)) members
        = Some m
        /\ is_legacy_hash (password_hash m) = true
        /\ password_hash m = Some (sha256_hexdigest (lf_password form))
        /\ snd (login sha256_hexdigest password_hasher check_password netloc
                      members authenticated form next)
           = update_member members (id (profile m))
               (fun x => set_password password_hasher x (lf_password form)).
Proof.
  intros sha hasher check net members auth form next. unfold login.
  destruct auth; [left; reflexivity|].
  destruct (lf_validate_on_submit form); [|left; reflexivity].
  destruct (find _ members) as [m|] eqn:Hf; [|left; reflexivity].
  destruct (is_legacy_hash (password_hash m)) eqn:Hleg.
  - destruct (password_hash m) as [h|] eqn:Hh; [|left; reflexivity].
    destruct (String.eqb_spec (sha (lf_password form)) h) as [Heq|];
      [|left; reflexivity].
    right. exists m. subst h.
    split; [reflexivity|]. split; [rewrite Hh; exact Hleg|].
    split; [exact Hh|].
    unfold set_password. simpl.
    destruct (not_active_unprivileged (profile m));
      [destruct (String.eqb (status (profile m)) "pending")|]; reflexivity.
  - left. destruct (check m (lf_password form)); simpl; [|reflexivity].
    destruct (not_active_unprivileged (profile m));
      [destruct (String.eqb (status (profile m)) "pending")|]; reflexivity.
Qed.

(** X17. The upgrade comes before the status check: a user with a legacy hash who
    presents the matching password has the hash replaced by the new one even
    when the sign-in is then refused because the account is pending or
    deactivated. *)
Theorem login_upgrades_before_the_status_check :
  forall (sha256_hexdigest password_hasher : string -> string)
         (check_password : Member -> string -> bool) (netloc : string -> string)
         (members : list Member) (form : LoginForm) (next : option string)
         (m : Member),
    lf_validate_on_submit form = true ->
    find (fun x => String.eqb (username (profile x)) (lf_username form)) members
    = Some m ->
    is_legacy_hash (password_hash m) = true ->
    password_hash m = Some (sha256_hexdigest (lf_password form)) ->
    eligible (profile m) = false ->
    (exists msg,
        fst (login sha256_hexdigest password_hasher check_password netloc
                   members false form next) = FlashTo msg "login")
    /\ find (fun x => String.eqb (username (profile x)) (lf_username form))
            (snd (login sha256_hexdigest password_hasher check_password netloc
                        members false form next))
       = Some (mkMember (profile m)
                        (Some (password_hasher (lf_password form))) (pin_hash m)).
Proof.
  intros sha hasher check net members form next m Hv Hf Hleg Hh Hel.
  unfold login. rewrite Hv, Hf, Hleg, Hh, String.eqb_refl.
  cbn zeta.
  change (profile (set_password hasher m (lf_password form))) with (profile m).
  rewrite (ineligible_fails_guard _ Hel).
  split.
  - destruct (String.eqb (status (profile m)) "pending"); eexists; reflexivity.
  - assert (Hfind : find (fun x => String.eqb (username (profile x)) (lf_username form))
                      (update_member members (id (profile m))
                         (fun x => set_password hasher x (lf_password form)))
                    = Some (set_password hasher m (lf_password form))).
    { unfold update_member. rewrite find_map_preserved.
      - rewrite Hf. simpl. rewrite Z.eqb_refl. reflexivity.
      - intros x. destruct (Z.eqb (id (profile x)) (id (profile m))); reflexivity. }
    destruct (String.eqb (status (profile m)) "pending"); simpl; exact Hfind.
Qed.

(** ** The PIN *)

Lemma wrong_pin_step (check_pin : Member -> string -> bool) (me : Member)
      (f : PinForm) (c : Browser) :
  truthy (pin_hash me) = true ->
  wrong_pin check_pin me f ->
  account_pin check_pin (Some me) f c
  = (ShowPin (Nat.leb 3 (S (failed_attempts c)))
             (Some (if Nat.leb 3 (S (failed_attempts c))
                    then "You have entered an incorrect PIN three times. Please reset your PIN."
                    else "Incorrect PIN. Please try again.")),
     mkBrowser (Some (S (failed_attempts c))) (pin_verified c)).
Proof.
  intros Hpin [Hv Hw]. unfold account_pin, failed_attempts.
  rewrite Hpin, Hv, Hw. cbn [negb].
  destruct c as [[k|] v]; cbn [pin_attempts pin_verified].
  - destruct (Nat.leb 3 (S k)); reflexivity.
  - reflexivity.
Qed.

Lemma wrong_pins_run (check_pin : Member -> string -> bool) (me : Member)
      (forms : list PinForm) :
  truthy (pin_hash me) = true ->
  Forall (wrong_pin check_pin me) forms ->
  forall c,
    failed_attempts (submit_pins check_pin (Some me) forms c)
    = (failed_attempts c + List.length forms)%nat
    /\ pin_verified (submit_pins check_pin (Some me) forms c) = pin_verified c.
Proof.
  intros Hpin Hall. induction Hall as [|f fs Hf _ IH]; intros c;
    cbn [submit_pins List.length].
  - split; [apply plus_n_O | reflexivity].
  - rewrite (wrong_pin_step check_pin me f c Hpin Hf). cbn [snd].
    destruct (IH (mkBrowser (Some (S (failed_attempts c))) (pin_verified c)))
      as [Ha Hv].
    rewrite Ha, Hv. unfold failed_attempts at 1. simpl. split; [lia | reflexivity].
Qed.

(** X18. The attempt counter counts and warns but never locks: after any run of
    wrong PINs the counter has grown by their number and the session is no
    more verified than before; the next wrong PIN is answered with the reset
    hint exactly when it is the third or a later one; and the right PIN is
    accepted all the same, verifies the session and clears the counter. *)
Theorem pin_counter_never_locks :
  forall (check_pin : Member -> string -> bool) (me : Member)
         (forms : list PinForm) (c : Browser),
    truthy (pin_hash me) = true ->
    Forall (wrong_pin check_pin me) forms ->
    failed_attempts (submit_pins check_pin (Some me) forms c)
    = (failed_attempts c + List.length forms)%nat
    /\ pin_verified (submit_pins check_pin (Some me) forms c) = pin_verified c
    /\ (forall bad,
           wrong_pin check_pin me bad ->
           exists flashed,
             fst (account_pin check_pin (Some me) bad
                    (submit_pins check_pin (Some me) forms c))
             = ShowPin (Nat.leb 3 (failed_attempts c + List.length forms + 1))
                       (Some flashed))
    /\ (forall good,
           pf_validate_on_submit good = true ->
           check_pin me (pf_pin good) = true ->
           account_pin check_pin (Some me) good
             (submit_pins check_pin (Some me) forms c)
           = (GoTo "account", mkBrowser (Some 0%nat) true)).
Proof.
  intros check_pin me forms c Hpin Hall.
  destruct (wrong_pins_run check_pin me forms Hpin Hall c) as [Ha Hv].
  split; [exact Ha|]. split; [exact Hv|]. split.
  - intros bad Hbad. rewrite (wrong_pin_step _ _ _ _ Hpin Hbad). cbn [fst].
    rewrite Ha. replace (S (failed_attempts c + List.length forms))
      with (failed_attempts c + List.length forms + 1)%nat by lia.
    eexists. reflexivity.
  - intros good Hgv Hgc. unfold account_pin. rewrite Hpin, Hgv, Hgc. reflexivity.
Qed.

(** X19. The account page opens only behind the PIN: for an eligible user with a
    PIN and an unverified session it redirects to the PIN form after any run
    of wrong PINs, and it is shown once the right PIN was entered. *)
Theorem account_page_needs_the_pin :
  forall (check_pin : Member -> string -> bool) (me : Member)
         (forms : list PinForm) (c : Browser),
    eligible (profile me) = true ->
    truthy (pin_hash me) = true ->
    pin_verified c = false ->
    Forall (wrong_pin check_pin me) forms ->
    account (Some me) (submit_pins check_pin (Some me) forms c) = GoTo "account_pin"
    /\ (forall good,
           pf_validate_on_submit good = true ->
           check_pin me (pf_pin good) = true ->
           account (Some me)
             (snd (account_pin check_pin (Some me) good
                     (submit_pins check_pin (Some me) forms c)))
           = Page "account.html").
Proof.
  intros check_pin me forms c Hel Hpin Hc Hall.
  destruct (wrong_pins_run check_pin me forms Hpin Hall c) as [_ Hv].
  unfold account. rewrite (eligible_passes_guard _ Hel), Hpin. simpl.
  split.
  - rewrite Hv, Hc. reflexivity.
  - intros good Hgv Hgc. unfold account_pin. rewrite Hpin, Hgv, Hgc. reflexivity.
Qed.

(** X20. A PIN is created once: with a hasher whose hash is non-empty and which
    [check_pin] accepts, [create_pin] stores the PIN and verifies the session,
    the same PIN then passes [account_pin], and a second [create_pin] changes
    nothing, whatever it submits. *)
Theorem create_pin_once :
  forall (pin_hasher : string -> string) (check_pin : Member -> string -> bool)
         (me : Member) (form : PinForm) (c : Browser),
    truthy (pin_hash me) = false ->
    pf_validate_on_submit form = true ->
    pin_hasher (pf_pin form) <> "" ->
    check_pin (set_pin pin_hasher me (pf_pin form)) (pf_pin form) = true ->
    create_pin pin_hasher (Some me) form c
    = (FlashTo "PIN set successfully!" "account",
       Some (set_pin pin_hasher me (pf_pin form)),
       mkBrowser (pin_attempts c) true)
    /\ (forall c',
           account_pin check_pin (Some (set_pin pin_hasher me (pf_pin form))) form c'
           = (GoTo "account", mkBrowser (Some 0%nat) true))
    /\ (forall form' c',
           create_pin pin_hasher (Some (set_pin pin_hasher me (pf_pin form))) form' c'
           = (GoTo "account_pin", Some (set_pin pin_hasher me (pf_pin form)), c')).
Proof.
  intros hasher check_pin me form c Hno Hv Hne Hok.
  assert (Hset : truthy (pin_hash (set_pin hasher me (pf_pin form))) = true).
  { simpl. apply negb_true_iff. apply String.eqb_neq. exact Hne. }
  split; [|split].
  - unfold create_pin. rewrite Hno, Hv. reflexivity.
  - intros c'. unfold account_pin. rewrite Hset, Hv, Hok. reflexivity.
  - intros form' c'. unfold create_pin. rewrite Hset. reflexivity.
Qed.

(** X21. Resetting the PIN takes the account password and nothing else: a wrong
    password leaves the PIN and the session as they were, the right one
    stores the new PIN without touching the session, so the failure counter
    survives the reset; and [/reset_pin] does what [/account/reset_pin]
    does. *)
Theorem reset_pin_needs_the_password :
  forall (check_password : Member -> string -> bool)
         (pin_hasher : string -> string) (check_pin : Member -> string -> bool)
         (user : Member) (form : ResetPinForm) (c : Browser),
    rf_validate_on_submit form = true ->
    (check_password user (rf_password form) = false ->
     reset_pin check_password pin_hasher (Some user) form c
     = (ShowWithError "pin_reset.html" "Incorrect password.", Some user, c))
    /\ (check_password user (rf_password form) = true ->
        reset_pin check_password pin_hasher (Some user) form c
        = (FlashTo "Your PIN has been reset successfully." "account",
           Some (set_pin pin_hasher user (rf_pin form)), c)
        /\ (pin_hasher (rf_pin form) <> "" ->
            forall bad,
              wrong_pin check_pin (set_pin pin_hasher user (rf_pin form)) bad ->
              exists flashed,
                fst (account_pin check_pin
                       (Some (set_pin pin_hasher user (rf_pin form))) bad c)
                = ShowPin (Nat.leb 3 (failed_attempts c + 1)) (Some flashed)))
    /\ reset_pin_global check_password pin_hasher (Some user) form c
       = reset_pin check_password pin_hasher (Some user) form c.
Proof.
  intros check hasher check_pin user form c Hv.
  split; [|split].
  - intros Hw. unfold reset_pin. rewrite Hv, Hw. reflexivity.
  - intros Hok. split; [unfold reset_pin; rewrite Hv, Hok; reflexivity|].
    intros Hne bad Hbad.
    assert (Hset : truthy (pin_hash (set_pin hasher user (rf_pin form))) = true)
      by (simpl; apply negb_true_iff, String.eqb_neq; exact Hne).
    rewrite (wrong_pin_step _ _ _ _ Hset Hbad). cbn [fst].
    replace (S (failed_attempts c)) with (failed_attempts c + 1)%nat by lia.
    eexists. reflexivity.
  - reflexivity.
Qed.

(** ** From the confirmation page to the execution *)



(** X23. The admin dashboard lists exactly the accounts that are not admins,
    and among them a manager only to a viewer who is a manager. *)
Theorem admin_dashboard_scope :
  forall (db : Db) (uid : Z) (viewer : User),
    query_get (session db) uid = Some viewer ->
    is_admin viewer = true ->
    exists listed,
      admin_dashboard db uid = (ShowUsers "admin/dashboard.html" listed, db)
      /\ (forall u, In u listed <->
                    In u (users (session db))
                    /\ is_admin u = false
                    /\ (is_manager u = true -> is_manager viewer = true)).
Proof.
  intros db uid viewer Hv Ha.
  unfold admin_dashboard, login_required, admin_required. rewrite Hv, Ha. simpl.
  eexists. split; [reflexivity|].
  intros u. destruct (is_manager viewer); rewrite filter_In;
    destruct (is_admin u), (is_manager u); simpl; intuition congruence.
Qed.

(** X23, on a concrete input. *)
Lemma admin_dashboard_scope_witness :
  exists listed,
    admin_dashboard Bank.db0 5 = (ShowUsers "admin/dashboard.html" listed, Bank.db0)
    /\ (forall u, In u listed <->
                  In u (users (session Bank.db0))
                  /\ is_admin u = false
                  /\ (is_manager u = true -> is_manager Bank.erin = true)).
Proof. apply (admin_dashboard_scope Bank.db0 5 Bank.erin); reflexivity. Defined.

(** ** Concrete runs *)

Lemma strong_password_order_and_growth_example :
  is_strong_password (codepoints "!dr0wssaP") = true
  /\ is_strong_password (codepoints "xx Passw0rd! yy") = true.
Proof. split; reflexivity. Qed.

(** X7, on a concrete input. *)
Lemma activate_user_opens_the_account_witness :
  query_get (persisted (snd (activate_user Office.anyone Bank.db0 5 4))) 4
  = Some (set_status Bank.dave "active")
  /\ eligible (set_status Bank.dave "active") = true.
Proof.
  destruct (activate_user_opens_the_account Office.anyone Bank.db0 5 4
              Bank.erin Bank.dave eq_refl eq_refl eq_refl eq_refl)
    as (_ & _ & H & He & _).
  split; [exact H | exact He].
Defined.

(** X8, on a concrete input. *)
Lemma deactivate_user_bars_the_account_witness :
  execute_transfer (Core.transfer_money false 7)
    (snd (deactivate_user Office.anyone Bank.db0 5 1)) 1
    (Bank.confirm_to "bob" Bank.d50)
  = (Return (Flash AwaitingApproval "index"),
     snd (deactivate_user Office.anyone Bank.db0 5 1))
  /\ admin_deposit (Core.deposit false 7)
       (snd (deactivate_user Office.anyone Bank.db0 5 1)) 5
       (Bank.deposit_to "1000000001" 10)
     = (Return (Flash CannotDepositInactive "admin_deposit"),
        snd (deactivate_user Office.anyone Bank.db0 5 1)).
Proof.
  destruct (deactivate_user_bars_the_account Office.anyone Bank.db0 5 1
              Bank.erin Bank.alice eq_refl eq_refl eq_refl eq_refl eq_refl eq_refl)
    as (Ht & _ & _ & Hd).
  split.
  - apply Ht.
  - apply (Hd (Core.deposit false 7) 5 Bank.erin); try reflexivity. discriminate.
Defined.

(** X9, on a concrete input. *)
Lemma deactivate_user_spares_the_privileged_witness :
  query_get (persisted (snd (deactivate_user Office.anyone Bank.db0 5 6))) 6
  = Some (set_status Bank.mallory "deactivated")
  /\ eligible (set_status Bank.mallory "deactivated") = true.
Proof.
  destruct (deactivate_user_spares_the_privileged Office.anyone Bank.db0 5 6
              Bank.erin Bank.mallory eq_refl eq_refl eq_refl eq_refl eq_refl)
    as (H & He & _).
  split; [exact H | exact He].
Defined.

(** X10, on a concrete input. *)
Lemma admin_routes_turn_others_away_witness :
  admin_deposit (Core.deposit false 7) Bank.db0 6 (Bank.deposit_to "1000000002" 10)
  = (Return (Flash NeedAdmin "index"), Bank.db0)
  /\ deactivate_user Office.anyone Bank.db0 6 1
     = (FlashTo "You need to be an admin to access this page." "index", Bank.db0).
Proof.
  destruct (admin_routes_turn_others_away Office.anyone (Core.deposit false 7)
              Bank.db0 6 Bank.mallory eq_refl) as (H & _).
  destruct (H eq_refl) as (Hd & _ & _ & Hx & _).
  split; [apply Hd | apply Hx].
Defined.

(** X11, on a concrete input. *)
Lemma manager_routes_turn_others_away_witness :
  toggle_admin Bank.db0 5 4 = (Return (Flash NeedManager "index"), Bank.db0)
  /\ toggle_admin Bank.db0 6 6
     = (Return (Flash CannotModifyManager "manager_dashboard"), Bank.db0).
Proof.
  destruct (manager_routes_turn_others_away Bank.db0 5 Bank.erin eq_refl)
    as (H & _).
  destruct (manager_routes_turn_others_away Bank.db0 6 Bank.mallory eq_refl)
    as (_ & Hm & _).
  split.
  - apply (H eq_refl).
  - apply (Hm 6 Bank.mallory); reflexivity.
Defined.

(** X12, on a concrete input. *)
Lemma promotion_then_demotion_leaves_active_witness :
  query_get
    (persisted (snd (toggle_admin (snd (toggle_admin Bank.db0 6 4)) 6 4))) 4
  = Some (set_status Bank.dave "active")
  /\ eligible (set_status Bank.dave "active") = true.
Proof.
  destruct (promotion_then_demotion_leaves_active Bank.db0 6 4 Bank.mallory
              Bank.dave eq_refl eq_refl eq_refl eq_refl eq_refl) as (H & He & _).
  split; [exact H | exact He].
Defined.

(** X13, on a concrete input. *)
Lemma manager_lists_partition_witness :
  exists admins regular_users,
    admin_list Bank.db0 6 = (ShowUsers "manager/admin_list.html" admins, Bank.db0)
    /\ user_list Bank.db0 6
       = (ShowUsers "manager/user_list.html" regular_users, Bank.db0)
    /\ manager_dashboard Bank.db0 6 = (ShowDashboard admins regular_users, Bank.db0)
    /\ Permutation (admins ++ regular_users)
                   (filter (fun u => negb (is_manager u)) (users (session Bank.db0)))
    /\ (forall u, In u admins -> ~ In u regular_users).
Proof. apply (manager_lists_partition Bank.db0 6 Bank.mallory); reflexivity. Defined.

Lemma bank_ids_unique : NoDup (map id (users (session Bank.db0))).
Proof.
  simpl. repeat constructor; simpl; intuition discriminate.
Defined.

(** X14, on a concrete input. *)
Lemma promotion_moves_between_lists_witness :
  exists before admins_after users_after,
    user_list Bank.db0 6 = (ShowUsers "manager/user_list.html" before, Bank.db0)
    /\ admin_list (snd (toggle_admin Bank.db0 6 4)) 6
       = (ShowUsers "manager/admin_list.html" admins_after,
          snd (toggle_admin Bank.db0 6 4))
    /\ user_list (snd (toggle_admin Bank.db0 6 4)) 6
       = (ShowUsers "manager/user_list.html" users_after,
          snd (toggle_admin Bank.db0 6 4))
    /\ In Bank.dave before
    /\ In (set_status (set_is_admin Bank.dave true) "active") admins_after
    /\ (forall v, In v users_after <-> In v before /\ id v <> 4).
Proof.
  apply (promotion_moves_between_lists Bank.db0 6 4 Bank.mallory Bank.dave);
    try reflexivity.
  exact bank_ids_unique.
Defined.

(** X15, on a concrete input. *)
Lemma login_admits_only_with_password_and_standing_witness :
  exists m,
    find (fun x => String.eqb (username (profile x)) "alice") Office.staff = Some m
    /\ profile m = Bank.alice
    /\ eligible Bank.alice = true
    /\ (if is_legacy_hash (password_hash m)
        then password_hash m = Some (Office.digest "Passw0rd!")
        else Office.checker m "Passw0rd!" = true)
    /\ (forall n, Some "/account" = Some n ->
                  Some "/account" = Some n /\ n <> "" /\ Office.local_only n = "").
Proof.
  apply (login_admits_only_with_password_and_standing Office.digest Office.hasher
           Office.checker Office.local_only Office.staff false
           (mkLoginForm true "alice" "Passw0rd!") (Some "/account")
           Bank.alice (Some "/account")).
  reflexivity.
Defined.

(** X17, on a concrete input. *)
Lemma login_upgrades_before_the_status_check_witness :
  (exists msg,
      fst (login Office.digest Office.hasher Office.checker Office.local_only
                 Office.staff false (mkLoginForm true "dave" "hunter2") None)
      = FlashTo msg "login")
  /\ find (fun x => String.eqb (username (profile x)) "dave")
          (snd (login Office.digest Office.hasher Office.checker Office.local_only
                      Office.staff false (mkLoginForm true "dave" "hunter2") None))
     = Some (mkMember Bank.dave (Some "$2b$hunter2") None).
Proof.
  apply (login_upgrades_before_the_status_check Office.digest Office.hasher
           Office.checker Office.local_only Office.staff
           (mkLoginForm true "dave" "hunter2") None Office.dave); reflexivity.
Defined.

Lemma office_wrong_pins :
  Forall (wrong_pin Office.pin_checker Office.alice)
         [Office.pin "0000"; Office.pin "1111"; Office.pin "2222"].
Proof. repeat constructor. Defined.

(** X18, on a concrete input. *)
Lemma pin_counter_never_locks_witness :
  failed_attempts
    (submit_pins Office.pin_checker (Some Office.alice)
       [Office.pin "0000"; Office.pin "1111"; Office.pin "2222"] Office.fresh)
  = 3%nat
  /\ account_pin Office.pin_checker (Some Office.alice) (Office.pin "1234")
       (submit_pins Office.pin_checker (Some Office.alice)
          [Office.pin "0000"; Office.pin "1111"; Office.pin "2222"] Office.fresh)
     = (GoTo "account", mkBrowser (Some 0%nat) true).
Proof.
  destruct (pin_counter_never_locks Office.pin_checker Office.alice
              [Office.pin "0000"; Office.pin "1111"; Office.pin "2222"]
              Office.fresh eq_refl office_wrong_pins) as (Ha & _ & _ & Hg).
  split; [exact Ha | apply Hg; reflexivity].
Defined.

(** X19, on a concrete input. *)
Lemma account_page_needs_the_pin_witness :
  account (Some Office.alice)
    (submit_pins Office.pin_checker (Some Office.alice)
       [Office.pin "0000"; Office.pin "1111"; Office.pin "2222"] Office.fresh)
  = GoTo "account_pin"
  /\ account (Some Office.alice)
       (snd (account_pin Office.pin_checker (Some Office.alice) (Office.pin "1234")
               (submit_pins Office.pin_checker (Some Office.alice)
                  [Office.pin "0000"; Office.pin "1111"; Office.pin "2222"]
                  Office.fresh)))
     = Page "account.html".
Proof.
  destruct (account_page_needs_the_pin Office.pin_checker Office.alice
              [Office.pin "0000"; Office.pin "1111"; Office.pin "2222"]
              Office.fresh eq_refl eq_refl eq_refl office_wrong_pins) as (H & Hg).
  split; [exact H | apply Hg; reflexivity].
Defined.

(** X20, on a concrete input. *)
Lemma create_pin_once_witness :
  create_pin Office.pin_hasher (Some Office.bob) (Office.pin "4711") Office.fresh
  = (FlashTo "PIN set successfully!" "account",
     Some (set_pin Office.pin_hasher Office.bob "4711"),
     mkBrowser None true)
  /\ create_pin Office.pin_hasher
       (Some (set_pin Office.pin_hasher Office.bob "4711")) (Office.pin "0000")
       Office.fresh
     = (GoTo "account_pin", Some (set_pin Office.pin_hasher Office.bob "4711"),
        Office.fresh).
Proof.
  destruct (create_pin_once Office.pin_hasher Office.pin_checker Office.bob
              (Office.pin "4711") Office.fresh eq_refl eq_refl)
    as (Hc & _ & Hn).
  - discriminate.
  - reflexivity.
  - split; [exact Hc | apply Hn].
Defined.

(** X21, on a concrete input. *)
Lemma reset_pin_needs_the_password_witness :
  reset_pin Office.checker Office.pin_hasher (Some Office.alice)
    (mkResetPinForm true "guess" "9999") Office.fresh
  = (ShowWithError "pin_reset.html" "Incorrect password.", Some Office.alice,
     Office.fresh)
  /\ reset_pin Office.checker Office.pin_hasher (Some Office.alice)
       (mkResetPinForm true "Passw0rd!" "9999") Office.fresh
     = (FlashTo "Your PIN has been reset successfully." "account",
        Some (set_pin Office.pin_hasher Office.alice "9999"), Office.fresh).
Proof.
  destruct (reset_pin_needs_the_password Office.checker Office.pin_hasher
              Office.pin_checker Office.alice
              (mkResetPinForm true "guess" "9999") Office.fresh eq_refl)
    as (Hw & _).
  destruct (reset_pin_needs_the_password Office.checker Office.pin_hasher
              Office.pin_checker Office.alice
              (mkResetPinForm true "Passw0rd!" "9999") Office.fresh eq_refl)
    as (_ & Hr & _).
  split; [apply Hw; reflexivity | apply Hr; reflexivity].
Defined.
